(** * census/core.py: request chunking, typing, retry and year gating

    A shallow embedding of [src/census/core.py].  Python values are modelled
    as follows:
    - [str] as [string] (a sequence of characters with code points below 256);
    - [int] years as [Z], an optional year argument as [option Z];
    - [dict] as [gmap] (Python dict equality ignores insertion order);
    - a field list as [pyseq], a [list] or a [tuple] of strings: the two
      differ under [+=], which extends a list in place and rebinds a tuple;
    - exceptions as the type [exn]; a call that may raise and that touches
      mutable state as the monad [M St A := St -> (exn + A) * St];
    - the injected HTTP session as a function from the requests sent so far
      and the current request to a response.
    The builtin [float] is a parameter (class [PyFloat]). *)

From Stdlib Require Import ZArith String Ascii List Lia Bool DecimalString.
From stdpp Require Import base option list gmap strings sorting.

Local Open Scope string_scope.
Local Open Scope Z_scope.
Local Open Scope list_scope.

(** ** Exceptions *)

Inductive exn : Type :=
| APIKeyError (value : string)
| CensusException (msg : string)
| UnsupportedYearException (msg : string)   (* subclass of CensusException *)
| ValueError                                (* resp.json() or float() failed *)
| KeyError (key : string)
| TypeError
| AttributeError.

(** [except CensusException as e] catches the class and its subclass; the
    result is [str(e)]. *)
Definition as_CensusException (e : exn) : option string :=
  match e with
  | CensusException m | UnsupportedYearException m => Some m
  | _ => None
  end.

(** ** The state-and-exception monad *)

Definition M (St A : Type) : Type := St -> (exn + A) * St.

Definition ret {St A} (a : A) : M St A := fun s => (inr a, s).
Definition raise {St A} (e : exn) : M St A := fun s => (inl e, s).
Definition bind {St A B} (c : M St A) (k : A -> M St B) : M St B :=
  fun s => match c s with
           | (inr a, s') => k a s'
           | (inl e, s') => (inl e, s')
           end.
Definition lift {St A} (r : exn + A) : M St A := fun s => (r, s).
Definition gets {St A} (f : St -> A) : M St A := fun s => (inr (f s), s).
Definition modify {St} (f : St -> St) : M St unit := fun s => (inr tt, f s).

Declare Scope py_scope.
Delimit Scope py_scope with py.
Notation "x <- c ;; k" := (bind c (fun x => k))
  (at level 100, c at next level, right associativity) : py_scope.
Notation "c ;;; k" := (bind c (fun _ => k))
  (at level 100, right associativity) : py_scope.
Local Open Scope py_scope.

Fixpoint run_each {St A B} (f : A -> M St B) (l : list A) : M St (list B) :=
  match l with
  | [] => ret []
  | x :: l' => y <- f x ;; ys <- run_each f l' ;; ret (y :: ys)
  end.

(** Pure code that may raise. *)
Definition ebind {A B} (r : exn + A) (k : A -> exn + B) : exn + B :=
  match r with inr a => k a | inl e => inl e end.

Fixpoint emap {A B} (f : A -> exn + B) (l : list A) : exn + list B :=
  match l with
  | [] => inr []
  | x :: l' => ebind (f x) (fun y => ebind (emap f l') (fun ys => inr (y :: ys)))
  end.

(** ** Field lists *)

Inductive pyseq : Type :=
| PyList (items : list string)
| PyTuple (items : list string).

Definition items (v : pyseq) : list string :=
  match v with PyList l | PyTuple l => l end.

Definition with_items (v : pyseq) (l : list string) : pyseq :=
  match v with PyList _ => PyList l | PyTuple _ => PyTuple l end.

Definition len (v : pyseq) : nat := length (items v).

(** [l[i:j]] for [0 <= i <= j]. *)
Definition slice {A} (l : list A) (i j : nat) : list A := take (j - i) (drop i l).

(** [range(0, stop, step)] for a positive [step]. *)
Definition range_step (stop step : nat) : list nat :=
  (fun k => k * step)%nat <$> seq 0 ((stop + (step - 1)) / step)%nat.

(** [chunks(l, n)]: the generator, as the list of what it yields. *)
Definition chunks (l : pyseq) (n : nat) : list pyseq :=
  (fun i => with_items l (slice (items l) i (i + n))) <$> range_step (len l) n.

(** ** Strings *)

(** [str(z)] for an int. *)
Definition str_Z (z : Z) : string := NilZero.string_of_int (Z.to_int z).

(** [sep.join(l)] *)
Fixpoint join (sep : string) (l : list string) : string :=
  match l with
  | [] => ""
  | x :: l' =>
      match l' with
      | [] => x
      | _ :: _ => x +:+ sep +:+ join sep l'
      end
  end.

(** [needle in hay] *)
Fixpoint contains (needle hay : string) : bool :=
  String.prefix needle hay ||
  match hay with
  | EmptyString => false
  | String _ hay' => contains needle hay'
  end.

(** The line boundaries of [str.splitlines] below code point 256. *)
Definition is_linebreak (c : ascii) : bool :=
  let n := nat_of_ascii c in
  bool_decide (n = 10 ∨ n = 11 ∨ n = 12 ∨ n = 13 ∨ n = 28 ∨ n = 29 ∨ n = 30 ∨ n = 133)%nat.

(** [s.splitlines()]; [cur] is the line being read, reversed. *)
Fixpoint splitlines_go (cur s : string) : list string :=
  match s with
  | EmptyString =>
      match cur with
      | EmptyString => []
      | String _ _ => [String.rev cur]
      end
  | String c s' =>
      if is_linebreak c then
        String.rev cur ::
        match s' with
        | String c' s'' =>
            if Ascii.eqb c "013" && Ascii.eqb c' "010"
            then splitlines_go "" s''
            else splitlines_go "" s'
        | EmptyString => splitlines_go "" s'
        end
      else splitlines_go (String c cur) s'
  end.
Definition splitlines (s : string) : list string := splitlines_go "" s.

(** [tpl % args] for a template whose only directives are [%s]. *)
Fixpoint pct_format (tpl : string) (args : list string) : string :=
  match tpl with
  | EmptyString => ""
  | String c rest =>
      match rest with
      | String c' rest' =>
          if Ascii.eqb c "%" && Ascii.eqb c' "s" then
            match args with
            | a :: args' => a +:+ pct_format rest' args'
            | [] => pct_format rest' []
            end
          else String c (pct_format rest args)
      | EmptyString => String c ""
      end
  end.

(** [repr] of a tuple of ints, as [str.format] renders it. *)
Definition repr_tuple (l : list Z) : string :=
  match l with
  | [] => "()"
  | [x] => "(" +:+ str_Z x +:+ ",)"
  | _ => "(" +:+ join ", " (str_Z <$> l) +:+ ")"
  end.

(** ** The HTTP session *)

Record request : Type := {
  url : string;
  params : option (gmap string string)   (* [None]: no [params] argument *)
}.

(** What [resp.json()] decodes: the data endpoint answers with an array of
    a header row and data rows of strings and nulls, the definition endpoint
    with an object. *)
Inductive json_body : Type :=
| JArray (headers : list string) (data : list (list (option string)))
| JObject (members : gmap string string).

Record response : Type := {
  status_code : Z;
  text : string;
  json : option json_body                 (* [None]: [resp.json()] raises ValueError *)
}.

(** [session.get]: the answer depends on the requests sent before and on
    the request. *)
Definition session_t : Type := list request -> request -> response.

Record templates : Type := {
  endpoint_url : string;
  definitions_url : string;
  definition_url : string;
  groups_url : string
}.

Definition Client_templates : templates := {|
  endpoint_url := "https://api.census.gov/data/%s/%s";
  definitions_url := "https://api.census.gov/data/%s/%s/variables.json";
  definition_url := "https://api.census.gov/data/%s/%s/variables/%s.json";
  groups_url := "https://api.census.gov/data/%s/%s/groups.json"
|}.

(** The attributes of a client that no method assigns after construction. *)
Record client : Type := {
  _key : string;
  session : session_t;
  default_year : Z;
  retries : Z;
  dataset : string;
  years : list Z
}.

(** ** Values, rows and casts *)

(** The builtin [float]: the type of its results, [float(s)] on a string
    ([None] stands for ValueError) and the comparison [a < b]. *)
Class PyFloat : Type := {
  float_val : Type;
  py_float : string -> option float_val;
  float_ltb : float_val -> float_val -> bool
}.

Section Census.
Context `{PyFloat}.

Inductive value : Type :=
| VNone
| VStr (s : string)
| VFloat (f : float_val).

(** A Row Result: a dict from header to typed value. *)
Abbreviation row := (gmap string value).

Definition float_or_str (v : string) : exn + value :=
  match py_float v with
  | Some f => inr (VFloat f)
  | None => inr (VStr v)
  end.

(** The three callables stored in the [types] table of [_field_type]. *)
Inductive cast : Type :=
| cast_str             (* str *)
| cast_float           (* float *)
| cast_float_or_str.   (* float_or_str *)

Definition apply_cast (c : cast) (item : string) : exn + value :=
  match c with
  | cast_str => inr (VStr item)
  | cast_float =>
      match py_float item with
      | Some f => inr (VFloat f)
      | None => inl ValueError
      end
  | cast_float_or_str => float_or_str item
  end.

(** The dict [types]; [None] is a missing key. *)
Definition types (predicate_type : string) : option cast :=
  if String.eqb predicate_type "fips-for" then Some cast_str
  else if String.eqb predicate_type "fips-in" then Some cast_str
  else if String.eqb predicate_type "int" then Some cast_float_or_str
  else if String.eqb predicate_type "float" then Some cast_float
  else if String.eqb predicate_type "string" then Some cast_str
  else None.

(** [cast(item) if item is not None else None] *)
Definition cast_item (c : cast) (item : option string) : exn + value :=
  match item with
  | Some s => apply_cast c s
  | None => inr VNone
  end.

(** ** merge and zip *)

(** [dict(item for d in dicts for item in d.items())]: later dicts win. *)
Definition merge (dicts : list row) : row :=
  foldl (fun acc d => d ∪ acc) ∅ dicts.

(** [zip] applied to the unpacked list [ls], as the list of its tuples:
    nothing for no argument, else as many tuples as the shortest argument has
    elements. *)
Fixpoint zip_star {A} (ls : list (list A)) : list (list A) :=
  match ls with
  | [] => []
  | l :: ls' =>
      match ls' with
      | [] => (fun x => [x]) <$> l
      | _ :: _ => zip_with cons l (zip_star ls')
      end
  end.

(** ** Client.get *)

(** [len(fields) > 49 and (not year or year > 2009)] *)
Definition sort_by_geoid (fields : pyseq) (year : option Z) : bool :=
  (49 <? len fields)%nat &&
  match year with
  | None => true
  | Some y => (y =? 0) || (2009 <? y)
  end.

Section Get.
Context {St : Type}.
(** [self.query], bound late: [query fields geo year sort_by_geoid]. *)
Variable query : pyseq -> gmap string string -> option Z -> bool -> M St (list row).

Definition get (fields : pyseq) (geo : gmap string string) (year : option Z)
  : M St (list row) :=
  let sort := sort_by_geoid fields year in
  all_results <- run_each (fun forty_nine_fields => query forty_nine_fields geo year sort)
                      (chunks fields 49) ;;
  ret (merge <$> zip_star all_results).
End Get.

(** A query that records, next to the state, the field list of each call
    and what the call returned. *)
Definition traced {St} (query : pyseq -> gmap string string -> option Z -> bool -> M St (list row))
  : pyseq -> gmap string string -> option Z -> bool
    -> M (list (pyseq * (exn + list row)) * St) (list row) :=
  fun fields geo year sort '(tr, s) =>
    let '(r, s') := query fields geo year sort s in
    (r, (tr ++ [(fields, r)], s')).

(** The calls that [run_each] makes of [query] on the chunks [l], with what
    each returned: it stops at the first exception. *)
Fixpoint calls {St} (query : pyseq -> gmap string string -> option Z -> bool -> M St (list row))
    (geo : gmap string string) (year : option Z) (sort : bool)
    (l : list pyseq) (s : St) : list (pyseq * (exn + list row)) :=
  match l with
  | [] => []
  | c :: l' =>
      match query c geo year sort s with
      | (inr r, s') => (c, inr r) :: calls query geo year sort l' s'
      | (inl e, _) => [(c, inl e)]
      end
  end.

(** [ceil(n / d)] on naturals. *)
Definition ceil_div (n d : nat) : nat := ((n + (d - 1)) / d)%nat.

(** The row count of the shortest of the results [rs]. *)
Fixpoint min_len {A} (rs : list (list A)) : nat :=
  match rs with
  | [] => 0%nat
  | r :: rs' =>
      match rs' with
      | [] => length r
      | _ :: _ => Nat.min (length r) (min_len rs')
      end
  end.

(** ** The mutable state of a client *)

(** The requests sent so far, the cache of [_field_type] (most recently
    used entry first; the key is the pair of the field and the year: one
    client is modelled, so the [self] component of the key is constant) and
    the URL templates, which [_switch_endpoints] assigns. *)
Record world : Type := {
  sent : list request;
  field_type_cache : list (string * Z * cast);
  urls : templates
}.

Definition new_world : world :=
  {| sent := []; field_type_cache := []; urls := Client_templates |}.

Definition session_get (self : client) (req : request) : M world response :=
  fun w => (inr (session self (sent w) req),
            {| sent := sent w ++ [req];
               field_type_cache := field_type_cache w;
               urls := urls w |}).

(** *** functools.lru_cache *)

Definition maxsize : nat := 1024.

Fixpoint cache_find (k : string * Z) (c : list (string * Z * cast)) : option cast :=
  match c with
  | [] => None
  | (k', v) :: c' => if decide (k = k') then Some v else cache_find k c'
  end.

Definition cache_remove (k : string * Z) (c : list (string * Z * cast))
  : list (string * Z * cast) :=
  filter (fun e => e.1 ≠ k) c.

Definition set_cache (c : list (string * Z * cast)) : M world unit :=
  modify (fun w => {| sent := sent w; field_type_cache := c; urls := urls w |}).

(** A hit makes the entry the most recent one and does not call [func]; a
    miss calls [func] and stores its result, dropping the least recently
    used entry when [maxsize] entries are held; an exception stores nothing. *)
Definition lru_cache (func : string -> Z -> M world cast) (field : string) (year : Z)
  : M world cast :=
  c <- gets field_type_cache ;;
  match cache_find (field, year) c with
  | Some v => set_cache ((field, year, v) :: cache_remove (field, year) c) ;;; ret v
  | None =>
      v <- func field year ;;
      c' <- gets field_type_cache ;;
      set_cache (take maxsize ((field, year, v) :: c')) ;;;
      ret v
  end.

(** *** Client._field_type *)

Definition _field_type_body (self : client) (field : string) (year : Z) : M world cast :=
  tpl <- gets (fun w => definition_url (urls w)) ;;
  let url := pct_format tpl [str_Z year; dataset self; field] in
  resp <- session_get self {| url := url; params := None |} ;;
  if status_code resp =? 200 then
    match json resp with
    | None => raise ValueError
    | Some (JArray _ _) => raise AttributeError
    | Some (JObject members) =>
        let predicate_type := default "string" (members !! "predicateType") in
        match types predicate_type with
        | Some c => ret c
        | None => raise (KeyError predicate_type)
        end
    end
  else ret cast_str.

Definition _field_type (self : client) : string -> Z -> M world cast :=
  lru_cache (_field_type_body self).

(** *** sorted *)

(** [a < b] on the values a row can hold. *)
Definition value_lt (a b : value) : exn + bool :=
  match a, b with
  | VStr s, VStr t => inr (String.ltb s t)
  | VFloat x, VFloat y => inr (float_ltb x y)
  | _, _ => inl TypeError
  end.

(** Insertion into a sorted list of (key, item) pairs, after the entries
    whose key is smaller and before the others. *)
Fixpoint insert_keyed {A} (kx : value * A) (l : list (value * A)) : exn + list (value * A) :=
  match l with
  | [] => inr [kx]
  | ky :: l' =>
      ebind (value_lt ky.1 kx.1) (fun lt =>
        if lt : bool then ebind (insert_keyed kx l') (fun r => inr (ky :: r))
        else inr (kx :: ky :: l'))
  end.

(** [sorted] on items already paired with their keys: a stable sort that
    compares keys with [<] only.  Any stable sort returns the same list when
    [<] is a strict total order on the keys, and raises TypeError as this
    one does when two keys cannot be compared. *)
Definition sort_keyed {A} (l : list (value * A)) : exn + list (value * A) :=
  foldr (fun kx acc => ebind acc (insert_keyed kx)) (inr []) l.

(** [sorted(results, key=key)]: the keys are computed first, in order, and
    [key] returns the key and what it left of the item. *)
Definition sorted {A} (key : A -> exn + value * A) (results : list A) : exn + list A :=
  ebind (emap key results) (fun keyed =>
  ebind (sort_keyed keyed) (fun r => inr (r.*2))).

Definition GEO_ID : string := "GEO_ID".

(** [lambda x: x['GEO_ID']] *)
Definition key_item (x : row) : exn + value * row :=
  match x !! GEO_ID with
  | Some k => inr (k, x)
  | None => inl (KeyError GEO_ID)
  end.

(** [lambda x: x.pop('GEO_ID')] *)
Definition key_pop (x : row) : exn + value * row :=
  match x !! GEO_ID with
  | Some k => inr (k, delete GEO_ID x)
  | None => inl (KeyError GEO_ID)
  end.

(** *** Client.query *)

(** One row of [results]: the dict comprehension over
    [zip(headers, types, d)]. *)
Definition build_row (headers : list string) (types : list cast) (d : list (option string))
  : exn + row :=
  ebind (emap (fun '(header, cast, item) =>
                 ebind (cast_item cast item) (fun v => inr (header, v)))
              (zip (zip headers types) d))
        (fun kvs => inr (foldl (fun m '(header, v) => <[header := v]> m) ∅ kvs)).

(** On the state of the argument object and the world. *)
Definition on_world {A} (c : M world A) : M (pyseq * world) A :=
  fun '(v, w) => let '(r, w') := c w in (r, (v, w')).

(** [if sort_by_geoid: fields += ...]: a list argument is extended in
    place, a tuple is rebound in the local variable only. *)
Definition append_geoid (sort : bool) : M (pyseq * world) pyseq :=
  fields <- gets fst ;;
  if sort then
    match fields with
    | PyList l =>
        modify (fun '(_, w) => (PyList (l ++ [GEO_ID]), w)) ;;;
        ret (PyList (l ++ [GEO_ID]))
    | PyTuple l => ret (PyTuple (l ++ [GEO_ID]))
    end
  else ret fields.

Definition query_params (self : client) (fields : pyseq) (geo : gmap string string)
  : exn + gmap string string :=
  match geo !! "for" with
  | None => inl (KeyError "for")
  | Some for_ =>
      let params :=
        <["key" := _key self]> (<["for" := for_]> {["get" := join "," (items fields)]}) in
      inr (match geo !! "in" with
           | Some in_ => <["in" := in_]> params
           | None => params
           end)
  end.

(** The part of [query] after [resp = self.session.get(...)]. *)
Definition read_response (self : client) (fields : pyseq) (year : Z) (sort : bool)
    (resp : response) : M world (list row) :=
  if status_code resp =? 200 then
    data <- match json resp with
            | Some data => ret data
            | None =>
                if contains "<title>Invalid Key</title>" (text resp)
                then raise (APIKeyError (join " " (splitlines (text resp))))
                else raise ValueError
            end ;;
    match data with
    | JObject _ => raise (KeyError "0")
    | JArray headers data =>
        types <- run_each (fun header => _field_type self header year) headers ;;
        results <- lift (emap (build_row headers types) data) ;;
        if sort then
          if bool_decide (GEO_ID ∈ items fields)
          then lift (sorted key_item results)
          else lift (sorted key_pop results)
        else ret results
    end
  else if status_code resp =? 204 then ret []
  else raise (CensusException (text resp)).

(** The function that [@retry_on_transient_error] wraps.  Its [fields]
    argument is the object held in the first component of the state. *)
Definition query_body (self : client) (geo : gmap string string) (year : option Z)
    (sort : bool) : M (pyseq * world) (list row) :=
  let year := default (default_year self) year in
  fields <- append_geoid sort ;;
  tpl <- gets (fun '(_, w) => endpoint_url (urls w)) ;;
  let url := pct_format tpl [str_Z year; dataset self] in
  params <- lift (query_params self fields geo) ;;
  resp <- on_world (session_get self {| url := url; params := Some params |}) ;;
  on_world (read_response self fields year sort resp).

(** *** retry_on_transient_error *)

Definition transient_error : string :=
  "There was an error while running your query.  We've logged the error and we'll correct it ASAP.  Sorry for the inconvenience.".

(** The [for] loop over [range(n)] with its [else] clause. *)
Fixpoint retry_loop {St A} (n : nat) (func : M St A) : M St A :=
  match n with
  | O => func
  | S n' =>
      fun s =>
        match func s with
        | (inr result, s') => (inr result, s')
        | (inl e, s') =>
            match as_CensusException e with
            | Some m =>
                if contains transient_error m then retry_loop n' func s'
                else (inl e, s')
            | None => (inl e, s')
            end
        end
  end.

Definition retry_on_transient_error {St A} (func : client -> M St A) (self : client)
  : M St A :=
  retry_loop (Z.to_nat (Z.max (retries self - 1) 0)) (func self).

(** [Client.query] as callers see it: the decorated method.  The call binds
    the argument object [fields], every attempt sees the same object. *)
Definition query (self : client) (fields : pyseq) (geo : gmap string string)
    (year : option Z) (sort : bool) : M world (list row) :=
  fun w =>
    let '(r, (_, w')) :=
      retry_on_transient_error (fun self => query_body self geo year sort) self (fields, w) in
    (r, w').

Definition Client_get (self : client) : pyseq -> gmap string string -> option Z
    -> M world (list row) :=
  get (query self).

(** ** supported_years *)

(** The decorator.  [kwargs] is the [year] keyword of the call, if given;
    the positional arguments of the method are applied before. *)
Definition supported_years {St A} (years_ : list Z) (func : client -> option Z -> M St A)
    (self : client) (kwargs : option Z) : M St A :=
  let year := default (default_year self) kwargs in
  let _years := match years_ with [] => years self | _ :: _ => years_ end in
  if bool_decide (year ∈ _years) then func self kwargs
  else raise (UnsupportedYearException
                ("Geography is not available in " +:+ str_Z year +:+
                 ". Available years include " +:+ repr_tuple _years)).

(** ** ACSClient and ACS5Client *)

Definition ACS_templates : templates := {|
  endpoint_url := "https://api.census.gov/data/%s/acs/%s";
  definitions_url := "https://api.census.gov/data/%s/acs/%s/variables.json";
  definition_url := "https://api.census.gov/data/%s/acs/%s/variables/%s.json";
  groups_url := "https://api.census.gov/data/%s/acs/%s/groups.json"
|}.

Definition ACSClient__switch_endpoints (year : Z) : M world unit :=
  modify (fun w => {| sent := sent w;
                      field_type_cache := field_type_cache w;
                      urls := if 2009 <? year then ACS_templates else Client_templates |}).

(** The call of [Client.get] that the [get] of a subclass makes with its
    own [*args] and [**kwargs], after [fields] and [geo]: [args] is the year
    passed by position, if one is, and [kwargs] the [year] keyword, if given.
    A year passed both ways is the TypeError of that call. *)
Definition Client_get_args (self : client) (fields : pyseq) (geo : gmap string string)
    (args kwargs : option Z) : M world (list row) :=
  match args, kwargs with
  | Some _, Some _ => raise TypeError
  | Some year, None => Client_get self fields geo (Some year)
  | None, _ => Client_get self fields geo kwargs
  end.

(** [ACSClient.get]: the templates are chosen by the [year] keyword alone,
    also when the year is passed by position. *)
Definition ACSClient_get (self : client) (fields : pyseq) (geo : gmap string string)
    (args kwargs : option Z) : M world (list row) :=
  ACSClient__switch_endpoints (default (default_year self) kwargs) ;;;
  Client_get_args self fields geo args kwargs.

(** [Client.__init__] for the class attributes of ACS5Client; [year] and
    [retries] are the optional arguments. *)
Definition ACS5Client (key : string) (year : option Z) (session : session_t)
    (retries : option Z) : client := {|
  _key := key;
  session := session;
  default_year := match year with
                  | Some y => if y =? 0 then 2023 else y
                  | None => 2023
                  end;
  retries := default 3 retries;
  dataset := "acs5";
  years := [2023; 2022; 2021; 2020; 2019; 2018; 2017; 2016; 2015; 2014; 2013; 2012;
            2011; 2010; 2009]
|}.

(** The [geo] dict that [ACS5Client.state_zipcode] builds. *)
Definition state_zipcode_geo (year : Z) (state_fips zcta : string) : gmap string string :=
  let geo := {["for" := "zip code tabulation area:" +:+ zcta]} in
  if 2022 <=? year then geo
  else if year <? 2020 then <["in" := "state:" +:+ state_fips]> geo
  else <["regionin" := "state:" +:+ state_fips]> geo.

Definition ACS5Client_state_zipcode (fields : pyseq) (state_fips zcta : string)
  : client -> option Z -> M world (list row) :=
  supported_years [2023; 2022; 2021; 2020; 2019; 2018; 2017; 2016; 2015; 2014; 2013;
                   2012; 2011]
    (fun self kwargs =>
       let year := default (default_year self) kwargs in
       ACSClient_get self fields (state_zipcode_geo year state_fips zcta) None kwargs).

(** [Client.state], one of the methods gated by the client's own [years]. *)
Definition Client_state (get_ : client -> pyseq -> gmap string string -> option Z
                                -> M world (list row))
    (fields : pyseq) (state_fips : string) : client -> option Z -> M world (list row) :=
  supported_years []
    (fun self kwargs => get_ self fields {["for" := "state:" +:+ state_fips]} kwargs).

(** ** Order of the sorted rows *)

(** Row [a] may stand before row [b]: both have a GEO_ID and the one of [b]
    is not smaller. *)
Definition geoid_le (a b : row) : Prop :=
  ∃ ka kb, a !! GEO_ID = Some ka ∧ b !! GEO_ID = Some kb ∧ value_lt kb ka = inr false.

Definition keyed_le {A} (a b : value * A) : Prop := value_lt b.1 a.1 = inr false.

(** The [get] parameter of a request, if it has one. *)
Definition get_param (req : request) : option string :=
  match params req with
  | Some p => p !! "get"
  | None => None
  end.

End Census.

(** ** Observing the attempts of a retried call *)

(** The function [func] made to record, next to the state, the outcome of
    each of its calls. *)
Definition recorded {St A} (func : client -> M St A)
  : client -> M (list (exn + A) * St) A :=
  fun self '(outs, s) =>
    let '(r, s') := func self s in
    (r, (outs ++ [r], s')).

(** The outcomes after which the loop of [retry_on_transient_error] goes
    on: a CensusException whose text contains the transient-error message. *)
Definition is_transient {A} (r : exn + A) : bool :=
  match r with
  | inl e =>
      match as_CensusException e with
      | Some m => contains transient_error m
      | None => false
      end
  | inr _ => false
  end.

(** ** Observing one attempt of query *)

(** The value of the local variable [fields] after the append. *)
Definition local_fields (sort : bool) (fields : pyseq) : pyseq :=
  if sort then with_items fields (items fields ++ [GEO_ID]) else fields.

(** The argument object after an attempt: only a list is changed. *)
Definition arg_after (sort : bool) (fields : pyseq) : pyseq :=
  match fields with
  | PyList l => if sort then PyList (l ++ [GEO_ID]) else fields
  | PyTuple _ => fields
  end.

(** The data request of an attempt whose selector has a "for" clause. *)
Definition data_request (self : client) (fields : pyseq) (geo : gmap string string)
    (year : option Z) (w : world) (for_ : string) : request :=
  let params :=
    <["key" := _key self]> (<["for" := for_]> {["get" := join "," (items fields)]}) in
  {| url := pct_format (endpoint_url (urls w))
                       [str_Z (default (default_year self) year); dataset self];
     params := Some (match geo !! "in" with
                     | Some in_ => <["in" := in_]> params
                     | None => params
                     end) |}.

Definition push_request (w : world) (req : request) : world :=
  {| sent := sent w ++ [req]; field_type_cache := field_type_cache w; urls := urls w |}.

(** ** Observing the metadata lookups *)

(** The request of [_field_type] for a field. *)
Definition definition_request (self : client) (field : string) (year : Z) (w : world)
  : request :=
  {| url := pct_format (definition_url (urls w)) [str_Z year; dataset self; field];
     params := None |}.



(** A session that answers every request with a 404. *)
Definition not_found_session : session_t :=
  fun _ _ => {| status_code := 404; text := "Not Found"; json := None |}.

(** ** Instances for running the model *)

Fixpoint digits_value (acc : Z) (s : string) : option Z :=
  match s with
  | EmptyString => Some acc
  | String c s' =>
      let n := Z.of_nat (nat_of_ascii c) in
      if (48 <=? n) && (n <=? 57) then digits_value (10 * acc + (n - 48)) s' else None
  end.

(** [float] on the strings of the examples: a string of decimal digits is
    read as the integer it writes, a string with another character is
    rejected. *)
Definition digits_float_parse (s : string) : option Z :=
  match s with
  | EmptyString => None
  | String _ _ => digits_value 0 s
  end.

Definition digits_float : PyFloat := {|
  float_val := Z;
  py_float := digits_float_parse;
  float_ltb := Z.ltb
|}.

(** The field names [F1 .. Fn]. *)
Definition numbered_fields (n : nat) : list string :=
  (fun i => "F" +:+ str_Z (Z.of_nat i)) <$> seq 1 n.

(** A query that answers every chunk with [k] empty rows. *)
Definition constant_query (k : nat)
  : pyseq -> gmap string string -> option Z -> bool
    -> M unit (list (gmap string (@value digits_float))) :=
  fun _ _ _ _ => ret (replicate k ∅).

(** [s.split(sep)] for a one-character separator; [cur] is the piece being
    read, reversed. *)
Fixpoint split_go (sep : ascii) (cur s : string) : list string :=
  match s with
  | EmptyString => [String.rev cur]
  | String c s' =>
      if Ascii.eqb c sep then String.rev cur :: split_go sep "" s'
      else split_go sep (String c cur) s'
  end.
Definition split (sep : ascii) (s : string) : list string := split_go sep "" s.

(** A session in the manner of the data API.  A data request is answered
    with a 200 and a table: the header row is the requested fields followed
    by the geography column "state", and there is one data row for each of
    [ids], holding the id under GEO_ID and the header joined to the id
    elsewhere.  A definition request is answered with a 404. *)
Definition echo_session (ids : list string) : session_t :=
  fun _ req =>
    match params req with
    | Some p =>
        let headers := split "," (default "" (p !! "get")) ++ ["state"] in
        {| status_code := 200;
           text := "";
           json := Some (JArray headers
                     ((fun id => (fun header =>
                                    if String.eqb header "GEO_ID" then Some id
                                    else Some (header +:+ "@" +:+ id)) <$> headers)
                        <$> ids)) |}
    | None => {| status_code := 404; text := "Not Found"; json := None |}
    end.

(** A session that answers every request with the transient error. *)
Definition failing_session : session_t :=
  fun _ _ => {| status_code := 500;
                text := "error: There was an error while running your query.  We've logged the error and we'll correct it ASAP.  Sorry for the inconvenience.";
                json := None |}.

(** A session that answers its first [failures] requests with the transient
    error and the later ones as [echo_session] does. *)
Definition flaky_session (failures : nat) (ids : list string) : session_t :=
  fun hist req =>
    if (length hist <? failures)%nat then failing_session hist req
    else echo_session ids hist req.

(** A session that answers its first request with the rows of "b" and "a"
    and the later ones with the row of "a" only. *)
Definition shrinking_session : session_t :=
  fun hist req =>
    if (length hist =? 0)%nat then echo_session ["b"; "a"] hist req
    else echo_session ["a"] hist req.

(** A session that answers every request with a 200 and the definition of
    a field whose predicate type is "datetime". *)
Definition unknown_type_session : session_t :=
  fun _ _ => {| status_code := 200; text := "";
                json := Some (JObject {["predicateType" := "datetime"]}) |}.


(** A session that answers a data request with [resp] and a definition
    request with a 404. *)
Definition fixed_session (resp : response) : session_t :=
  fun _ req =>
    match params req with
    | Some _ => resp
    | None => {| status_code := 404; text := "Not Found"; json := None |}
    end.

Definition state_all : gmap string string := {["for" := "state:*"]}.

(** A query that answers a chunk with as many empty rows as the chunk has
    fields. *)
Definition uneven_query
  : pyseq -> gmap string string -> option Z -> bool
    -> M unit (list (gmap string (@value digits_float))) :=
  fun fields _ _ _ => ret (replicate (len fields) ∅).

(** A query that answers a chunk with one row, which holds the first field
    of the chunk. *)
Definition first_field_query
  : pyseq -> gmap string string -> option Z -> bool
    -> M unit (list (gmap string (@value digits_float))) :=
  fun fields _ _ _ => ret [{[default "" (head (items fields)) := VStr "x"]}].

(** The number of rows of a result. *)
Definition row_count {A} (out : exn + list A) : option nat :=
  match out with
  | inr rows => Some (length rows)
  | inl _ => None
  end.

(** The GEO_ID entry of every row of a result. *)
Definition geoids_of (out : exn + list (gmap string (@value digits_float)))
  : exn + list (option (@value digits_float)) :=
  match out with
  | inr rows => inr ((fun row => row !! GEO_ID) <$> rows)
  | inl e => inl e
  end.

(** The entries of every row of a result under the keys [keys]. *)
Definition cells_of (keys : list string) (out : exn + list (gmap string (@value digits_float)))
  : exn + list (list (option (@value digits_float))) :=
  match out with
  | inr rows => inr ((fun row => (fun k => row !! k) <$> keys) <$> rows)
  | inl e => inl e
  end.

Definition echo_client : client := ACS5Client "k" None (echo_session ["b"; "a"]) None.

Definition not_found_client : client := ACS5Client "k" None not_found_session None.

Definition failing_client (retries : Z) : client :=
  ACS5Client "k" None failing_session (Some retries).

Definition invalid_key_page : string :=
  "<html><title>Invalid Key</title><body>A valid key must be included.</body></html>".

(** ** The other clients and methods *)

(** The templates that [SF1Client] and [PLClient] assign. *)
Definition dec_templates : templates := {|
  endpoint_url := "https://api.census.gov/data/%s/dec/%s";
  definitions_url := "https://api.census.gov/data/%s/dec/%s/variables.json";
  definition_url := "https://api.census.gov/data/%s/dec/%s/variables/%s.json";
  groups_url := "https://api.census.gov/data/%s/dec/%s/groups.json"
|}.



Section Clients.
Context `{PyFloat}.

(** [ACS5StClient._switch_endpoints]: the same templates for every year. *)
Definition ACS5StClient__switch_endpoints (year : Z) : M world unit :=
  modify (fun w => {| sent := sent w;
                      field_type_cache := field_type_cache w;
                      urls := ACS_templates |}).

(** [ACSClient.get] as [ACS5StClient] inherits it. *)
Definition ACS5StClient_get (self : client) (fields : pyseq) (geo : gmap string string)
    (args kwargs : option Z) : M world (list (gmap string value)) :=
  ACS5StClient__switch_endpoints (default (default_year self) kwargs) ;;;
  Client_get_args self fields geo args kwargs.

Definition SF1Client__switch_endpoints (year : Z) : M world unit :=
  modify (fun w => {| sent := sent w;
                      field_type_cache := field_type_cache w;
                      urls := dec_templates |}).

Definition SF1Client_get (self : client) (fields : pyseq) (geo : gmap string string)
    (args kwargs : option Z) : M world (list (gmap string value)) :=
  SF1Client__switch_endpoints (default (default_year self) kwargs) ;;;
  Client_get_args self fields geo args kwargs.

Definition PLClient__switch_endpoints (year : Z) : M world unit :=
  modify (fun w => {| sent := sent w;
                      field_type_cache := field_type_cache w;
                      urls := dec_templates |}).

Definition PLClient_get (self : client) (fields : pyseq) (geo : gmap string string)
    (args kwargs : option Z) : M world (list (gmap string value)) :=
  PLClient__switch_endpoints (default (default_year self) kwargs) ;;;
  Client_get_args self fields geo args kwargs.

(** [ACS5Client.zipcode]; [state_fips] is the keyword of that name, if the
    call has it.  The deprecation warning is not modelled. *)
Definition ACS5Client_zipcode (fields : pyseq) (zcta : string) (state_fips : option string)
  : client -> option Z -> M world (list (gmap string value)) :=
  supported_years [2023; 2022; 2021; 2020; 2019; 2018; 2017; 2016; 2015; 2014; 2013;
                   2012; 2011]
    (fun self kwargs =>
       match state_fips with
       | None => raise (KeyError "state_fips")
       | Some state_fips => ACS5Client_state_zipcode fields state_fips zcta self kwargs
       end).

(** [ACS5Client.state_county_blockgroup]; [tract] is the optional argument. *)
Definition state_county_blockgroup_geo (state_fips county_fips blockgroup : string)
    (tract : option string) : gmap string string :=
  let in_ := "state:" +:+ state_fips +:+ " county:" +:+ county_fips in
  <["in" := match tract with
            | Some (String c t) => in_ +:+ " tract:" +:+ String c t
            | Some EmptyString | None => in_
            end]> {["for" := "block group:" +:+ blockgroup]}.

Definition ACS5Client_state_county_blockgroup (fields : pyseq)
    (state_fips county_fips blockgroup : string) (tract : option string)
  : client -> option Z -> M world (list (gmap string value)) :=
  supported_years []
    (fun self kwargs =>
       ACSClient_get self fields
         (state_county_blockgroup_geo state_fips county_fips blockgroup tract) None kwargs).

(** [ACS5Client.state_elementary_school] *)
Definition state_elementary_school_geo (state_fips fips : string) : gmap string string :=
  match state_fips with
  | EmptyString => {["for" := "school district (elementary):" +:+ fips]}
  | String _ _ =>
      <["in" := "state:" +:+ state_fips]> {["for" := "school district (elementary):" +:+ fips]}
  end.

Definition ACS5Client_state_elementary_school (fields : pyseq) (state_fips fips : string)
  : client -> option Z -> M world (list (gmap string value)) :=
  supported_years [2023; 2022; 2021; 2020]
    (fun self kwargs =>
       ACSClient_get self fields (state_elementary_school_geo state_fips fips) None
         kwargs).

(** ** The requests a call may send *)

(** A request built from the templates and the year of [w]: a data request
    for the selector [geo], or the definition request of some field. *)
Definition request_of (self : client) (geo : gmap string string) (year : option Z)
    (w : world) (r : request) : Prop :=
  (∃ fields for_, geo !! "for" = Some for_ ∧ r = data_request self fields geo year w for_)
  ∨ (∃ field, r = definition_request self field (default (default_year self) year) w).

(** From [w] to [w']: the templates are kept and the requests sent in
    between are requests of [request_of]. *)
Definition sends_only (self : client) (geo : gmap string string) (year : option Z)
    (w w' : world) : Prop :=
  urls w' = urls w
  ∧ ∃ new, sent w' = sent w ++ new ∧ Forall (request_of self geo year w) new.

(** Whether a string holds one of the line boundaries. *)
Fixpoint has_linebreak (s : string) : bool :=
  match s with
  | EmptyString => false
  | String c s' => is_linebreak c || has_linebreak s'
  end.

(** The value of the APIKeyError that [query] raises for the text of an
    answer. *)
Definition api_key_message (text : string) : string := join " " (splitlines text).

(** The URL of the data endpoint of a client for a year; [family] is what
    stands between the year and the dataset. *)
Definition data_url (family : string) (self : client) (year : Z) : string :=
  "https://api.census.gov/data/" +:+ str_Z year +:+ family +:+ dataset self.

(** A request to the data endpoint [base] or to the definition of a field
    under it. *)
Definition goes_to (base : string) (r : request) : Prop :=
  (url r = base ∧ is_Some (params r))
  ∨ (∃ field, url r = base +:+ "/variables/" +:+ field +:+ ".json" ∧ params r = None).

End Clients.

(** * Properties *)

Section Properties.
Context `{PyFloat}.

(** ** chunks *)

Lemma ceil_div_spec (n d : nat) :
  (0 < d)%nat -> (n <= d * ceil_div n d)%nat /\ (d * ceil_div n d < n + d)%nat.
Proof.
  intros Hd. unfold ceil_div.
  pose proof (Nat.div_mod_eq (n + (d - 1)) d) as E.
  pose proof (Nat.mod_upper_bound (n + (d - 1)) d ltac:(lia)) as U.
  split; lia.
Qed.

Lemma length_chunks (l : pyseq) (n : nat) : length (chunks l n) = ceil_div (len l) n.
Proof. unfold chunks, range_step, ceil_div. by rewrite !length_fmap, length_seq. Qed.

Lemma concat_take_drop {A} (l : list A) (n k : nat) :
  concat ((fun j => take n (drop (j * n) l)) <$> seq 0 k) = take (k * n) l.
Proof.
  induction k as [|k IH]; [by rewrite take_0|].
  rewrite seq_S, fmap_app, concat_app, IH. simpl. rewrite app_nil_r.
  rewrite take_take_drop. f_equal. lia.
Qed.

Lemma items_chunks (l : pyseq) (n : nat) :
  items <$> chunks l n
  = (fun j => take n (drop (j * n) (items l))) <$> seq 0 (ceil_div (len l) n).
Proof.
  unfold chunks, range_step, ceil_div. rewrite <- !list_fmap_compose.
  apply list_fmap_ext. intros _ j _. simpl. unfold slice.
  destruct l; simpl; f_equal; lia.
Qed.

Lemma concat_chunks (l : pyseq) (n : nat) :
  (0 < n)%nat -> concat (items <$> chunks l n) = items l.
Proof.
  intros Hn. rewrite items_chunks, concat_take_drop.
  apply take_ge. destruct (ceil_div_spec (len l) n Hn) as [Hle _].
  unfold len in *. lia.
Qed.

Lemma chunks_short (l : pyseq) (n : nat) :
  (1 <= len l <= n)%nat -> chunks l n = [l].
Proof.
  intros [H1 Hn]. unfold chunks, range_step.
  replace ((len l + (n - 1)) / n)%nat with 1%nat.
  - simpl. unfold slice. rewrite drop_0, take_ge by (unfold len in *; lia).
    by destruct l.
  - apply Nat.div_unique with (r := (len l - 1)%nat); lia.
Qed.

Lemma chunks_empty (l : pyseq) (n : nat) : len l = 0%nat -> (0 < n)%nat -> chunks l n = [].
Proof.
  intros Hl Hn. unfold chunks, range_step. rewrite Hl.
  rewrite Nat.div_small by lia. done.
Qed.

Lemma chunks_bound (l : pyseq) (n : nat) (c : pyseq) :
  c ∈ chunks l n -> (len c <= n)%nat.
Proof.
  unfold chunks. intros (i & -> & _)%list_elem_of_fmap.
  unfold len, slice. destruct l; simpl; rewrite length_take; lia.
Qed.

(** ** zip and merge *)

Lemma min_len_le {A} (rs : list (list A)) (r : list A) :
  r ∈ rs -> (min_len rs <= length r)%nat.
Proof.
  induction rs as [|r0 rs IH]; [by intros ?%elem_of_nil|].
  intros [->|Hin]%elem_of_cons; destruct rs as [|r1 rs]; simpl in *.
  - done.
  - lia.
  - by apply elem_of_nil in Hin.
  - specialize (IH Hin). lia.
Qed.

Lemma min_len_attained {A} (rs : list (list A)) :
  rs ≠ [] -> ∃ r, r ∈ rs ∧ length r = min_len rs.
Proof.
  induction rs as [|r0 rs IH]; [done|]. intros _.
  destruct rs as [|r1 rs].
  - exists r0. split; [left|done].
  - destruct IH as (r & Hin & Hr); [done|].
    destruct (Nat.min_spec (length r0) (min_len (r1 :: rs))) as [[_ E]|[_ E]].
    + exists r0. split; [left|]. change (length r0 = Nat.min (length r0) (min_len (r1 :: rs))).
      by rewrite E.
    + exists r. split; [by right|].
      change (length r = Nat.min (length r0) (min_len (r1 :: rs))). by rewrite E.
Qed.

Lemma length_zip_star {A} (rs : list (list A)) : length (zip_star rs) = min_len rs.
Proof.
  induction rs as [|r rs IH]; [done|].
  destruct rs as [|r1 rs].
  - simpl. by rewrite length_fmap.
  - change (length (zip_with cons r (zip_star (r1 :: rs)))
            = Nat.min (length r) (min_len (r1 :: rs))).
    by rewrite length_zip_with, IH.
Qed.

(** The tuple at position [i] holds the element at position [i] of every
    argument, and there is one exactly when every argument has one. *)
Lemma zip_star_lookup {A} (rs : list (list A)) (i : nat) (cells : list A) :
  rs ≠ [] ->
  zip_star rs !! i = Some cells <-> Forall2 (fun r c => r !! i = Some c) rs cells.
Proof.
  revert cells. induction rs as [|r rs IH]; [done|]. intros cells _.
  destruct rs as [|r1 rs].
  - simpl. rewrite list_lookup_fmap. split.
    + destruct (r !! i) as [x|] eqn:E; simpl; [|done].
      intros [= <-]. by repeat constructor.
    + intros Hf. inversion Hf as [|? c ? cs Hc Hnil]; subst.
      inversion Hnil; subst. by rewrite Hc.
  - change (zip_star (r :: r1 :: rs)) with (zip_with cons r (zip_star (r1 :: rs))).
    rewrite lookup_zip_with_Some. split.
    + intros (x & cs & -> & Hx & Hcs). constructor; [done|]. by apply IH.
    + intros Hf. inversion Hf as [|? c ? cs Hc Hrest]; subst.
      exists c, cs. split_and!; [done|done|]. by apply IH.
Qed.

(** A later dict overrides the keys of the earlier ones. *)
Lemma merge_snoc (dicts : list (gmap string value)) (d : gmap string value) :
  merge (dicts ++ [d]) = d ∪ merge dicts.
Proof. unfold merge. by rewrite foldl_app. Qed.

Lemma lookup_merge_snoc (dicts : list (gmap string value)) (d : gmap string value)
    (k : string) :
  merge (dicts ++ [d]) !! k = match d !! k with Some v => Some v | None => merge dicts !! k end.
Proof.
  rewrite merge_snoc, lookup_union. destruct (d !! k), (merge dicts !! k); done.
Qed.

Lemma dom_merge (dicts : list (gmap string value)) :
  dom (merge dicts) = ⋃ (dom <$> dicts).
Proof.
  induction dicts as [|d dicts IH] using rev_ind; [by unfold merge; simpl; rewrite dom_empty_L|].
  rewrite merge_snoc, dom_union_L, IH, fmap_app, union_list_app_L. simpl.
  rewrite (right_id_L ∅ (∪)). apply (comm_L (∪)).
Qed.

(** ** get: the queries it issues *)

Section GetProperties.
Context {St : Type}.
Variable query : pyseq -> gmap string string -> option Z -> bool
                 -> M St (list (gmap string value)).
Variables (geo : gmap string string) (year : option Z) (sort : bool).

Lemma run_each_traced (l : list pyseq) tr (s : St) :
  run_each (fun c => traced query c geo year sort) l (tr, s)
  = ((run_each (fun c => query c geo year sort) l s).1,
     (tr ++ calls query geo year sort l s,
      (run_each (fun c => query c geo year sort) l s).2)).
Proof.
  revert tr s. induction l as [|c l IH]; intros tr s; simpl.
  - unfold ret. simpl. by rewrite app_nil_r.
  - unfold bind, ret. unfold traced at 1.
    destruct (query c geo year sort s) as [[e|r] s1]; simpl; [done|].
    rewrite IH.
    destruct (run_each _ l s1) as [[e|rs] s2]; simpl;
      by rewrite <- app_assoc.
Qed.

Lemma calls_prefix (l : list pyseq) (s : St) :
  (calls query geo year sort l s).*1 `prefix_of` l.
Proof.
  revert s. induction l as [|c l IH]; intros s; simpl; [done|].
  destruct (query c geo year sort s) as [[e|r] s1]; simpl.
  - by apply prefix_cons, prefix_nil.
  - by apply prefix_cons.
Qed.

Lemma calls_run_each_ok (l : list pyseq) (s s' : St) rs :
  run_each (fun c => query c geo year sort) l s = (inr rs, s') ->
  calls query geo year sort l s = zip l (inr <$> rs) ∧ length rs = length l.
Proof.
  revert s rs. induction l as [|c l IH]; intros s rs; simpl.
  - unfold ret. by intros [= <- <-].
  - unfold bind, ret.
    destruct (query c geo year sort s) as [[e|r] s1]; [done|].
    destruct (run_each _ l s1) as [[e|rs'] s2] eqn:E; [done|].
    intros [= <- <-]. destruct (IH _ _ E) as [-> Hlen]. simpl. by rewrite Hlen.
Qed.

Lemma calls_all_returned (l : list pyseq) (s : St) rs :
  (calls query geo year sort l s).*2 = inr <$> rs ->
  (run_each (fun c => query c geo year sort) l s).1 = inr rs.
Proof.
  revert s rs. induction l as [|c l IH]; intros s rs; simpl.
  - by destruct rs.
  - unfold bind, ret.
    destruct (query c geo year sort s) as [[e|r] s1]; simpl.
    + by destruct rs.
    + destruct rs as [|r' rs]; [done|]. simpl. intros [= <- Hrs].
      specialize (IH s1 rs Hrs).
      destruct (run_each _ l s1) as [[e|rs'] s2]; simpl in *; congruence.
Qed.
End GetProperties.

(** Recording the calls changes neither the result of [get] nor the state. *)
Lemma get_traced_erase {St} (query : pyseq -> gmap string string -> option Z -> bool
                                     -> M St (list (gmap string value)))
    fields geo year tr (s : St) :
  (get (traced query) fields geo year (tr, s)).1 = (get query fields geo year s).1
  ∧ (get (traced query) fields geo year (tr, s)).2.2 = (get query fields geo year s).2.
Proof.
  unfold get, bind. rewrite run_each_traced.
  destruct (run_each _ (chunks fields 49) s) as [[e|rs] s']; done.
Qed.

(** ** Chunked get *)

(** C1 (amended).  A successful [get] issues one query per chunk of 49
    fields, in order: none for the empty field list, exactly one for a list
    of 1 to 49 fields, [ceil(n/49)] in general; the field lists of the
    queries, concatenated, are the original list; and when every chunk
    returned [k] rows the merged result has [k] rows. *)
Theorem get_queries_are_the_chunks {St}
    (query : pyseq -> gmap string string -> option Z -> bool
             -> M St (list (gmap string value)))
    (fields : pyseq) (geo : gmap string string) (year : option Z) (s s' : St)
    (tr : list (pyseq * (exn + list (gmap string value))))
    (rows : list (gmap string value)) :
  get (traced query) fields geo year ([], s) = (inr rows, (tr, s')) ->
  tr.*1 = chunks fields 49
  ∧ length tr = ceil_div (len fields) 49
  ∧ (len fields = 0%nat -> tr = [])
  ∧ ((1 <= len fields <= 49)%nat -> tr.*1 = [fields])
  ∧ concat (items <$> tr.*1) = items fields
  ∧ (∀ k, (0 < len fields)%nat ->
          Forall (fun e => ∃ r, e.2 = inr r ∧ length r = k) tr ->
          length rows = k).
Proof.
  unfold get, bind. rewrite run_each_traced. simpl.
  destruct (run_each _ (chunks fields 49) s) as [[e|rs] s1] eqn:E; simpl; [done|].
  unfold ret. intros [= <- <- <-].
  destruct (calls_run_each_ok _ _ _ _ _ _ _ _ E) as [Hcalls Hlen].
  assert (Htr : (calls query geo year (sort_by_geoid fields year) (chunks fields 49) s).*1
                = chunks fields 49).
  { rewrite Hcalls. apply fst_zip. rewrite length_fmap. lia. }
  split_and!.
  - done.
  - rewrite <- (length_fmap fst), Htr. apply length_chunks.
  - intros H0. rewrite Hcalls, chunks_empty by (done || lia). done.
  - intros Hn. rewrite Htr. by apply chunks_short.
  - rewrite Htr. apply concat_chunks. lia.
  - intros k Hpos Hall. rewrite length_fmap, length_zip_star.
    assert (Hne : rs ≠ []).
    { intros ->. simpl in Hlen. symmetry in Hlen. rewrite length_chunks in Hlen.
      destruct (ceil_div_spec (len fields) 49 ltac:(lia)) as [Hc _]. lia. }
    assert (Hk : Forall (fun r => length r = k) rs).
    { apply Forall_forall. intros r Hr. rewrite Hcalls in Hall.
      apply list_elem_of_lookup in Hr as [i Hi].
      destruct (lookup_lt_is_Some_2 (chunks fields 49) i) as [c Hc].
      { rewrite <- Hlen. by eapply lookup_lt_Some. }
      rewrite Forall_forall in Hall.
      destruct (Hall (c, inr r)) as (r' & [= <-] & Hr').
      - apply list_elem_of_lookup. exists i. rewrite lookup_zip_with, Hc. simpl.
        by rewrite list_lookup_fmap, Hi.
      - done. }
    destruct (min_len_attained rs Hne) as (r & Hin & <-).
    rewrite Forall_forall in Hk. by apply Hk.
Qed.

(** C10.  When the queries of a [get] all return, whatever their row
    counts, [get] raises nothing: the result is the positional merge of the
    chunk results, as long as the shortest of them; row [i] merges the rows
    at position [i] of every chunk, and the rows of a chunk at positions
    from that length on are in no merged row. *)
Theorem get_truncates_to_shortest_chunk {St}
    (query : pyseq -> gmap string string -> option Z -> bool
             -> M St (list (gmap string value)))
    (fields : pyseq) (geo : gmap string string) (year : option Z) (s s' : St)
    (out : exn + list (gmap string value))
    (tr : list (pyseq * (exn + list (gmap string value))))
    (rs : list (list (gmap string value))) :
  get (traced query) fields geo year ([], s) = (out, (tr, s')) ->
  tr.*2 = inr <$> rs ->
  ∃ rows, out = inr rows
  ∧ length rows = min_len rs
  ∧ (∀ r, r ∈ rs -> (length rows <= length r)%nat)
  ∧ (rs ≠ [] -> ∃ r, r ∈ rs ∧ length rows = length r)
  ∧ (∀ i row, rows !! i = Some row <->
       ∃ cells, Forall2 (fun r c => r !! i = Some c) rs cells ∧ rs ≠ [] ∧ row = merge cells).
Proof.
  unfold get, bind, ret. rewrite run_each_traced. simpl. intros Hget Hall.
  assert (tr = calls query geo year (sort_by_geoid fields year) (chunks fields 49) s) as ->.
  { destruct (run_each _ (chunks fields 49) s) as [[?|?] ?]; simpl in Hget; congruence. }
  pose proof (calls_all_returned _ _ _ _ _ _ _ Hall) as Hok.
  destruct (run_each _ (chunks fields 49) s) as [[e|rs'] s1]; simpl in *; [done|].
  injection Hok as ->. injection Hget as <- _.
  exists (merge <$> zip_star rs). split_and!.
  - done.
  - by rewrite length_fmap, length_zip_star.
  - intros r Hr. rewrite length_fmap, length_zip_star. by apply min_len_le.
  - intros Hne. destruct (min_len_attained rs Hne) as (r & Hin & Hr).
    exists r. by rewrite length_fmap, length_zip_star.
  - intros i row. rewrite list_lookup_fmap. split.
    + destruct (zip_star rs !! i) as [cells|] eqn:E; simpl; [|done].
      intros [= <-]. assert (rs ≠ []) by (by destruct rs).
      exists cells. split_and!; [|done..]. by apply zip_star_lookup.
    + intros (cells & Hf & Hne & ->).
      apply (zip_star_lookup rs i cells Hne) in Hf. by rewrite Hf.
Qed.

(** ** The year guard *)

Lemma supported_years_in {St A} (years_ : list Z) (func : client -> option Z -> M St A)
    (self : client) (kwargs : option Z) (s : St) :
  default (default_year self) kwargs
    ∈ match years_ with [] => years self | _ :: _ => years_ end ->
  supported_years years_ func self kwargs s = func self kwargs s.
Proof. intros Hy. unfold supported_years. by rewrite bool_decide_eq_true_2. Qed.

Lemma supported_years_out {St A} (years_ : list Z) (func : client -> option Z -> M St A)
    (self : client) (kwargs : option Z) (s : St) :
  let year := default (default_year self) kwargs in
  let declared := match years_ with [] => years self | _ :: _ => years_ end in
  year ∉ declared ->
  supported_years years_ func self kwargs s
  = (inl (UnsupportedYearException
            ("Geography is not available in " +:+ str_Z year +:+
             ". Available years include " +:+ repr_tuple declared)), s).
Proof. intros year declared Hy. unfold supported_years. by rewrite bool_decide_eq_false_2. Qed.

(** C7.  A gated method called with a year outside the declared set (the
    years of the decorator, or the client's [years] when the decorator has
    none) raises UnsupportedYearException with a message that names the year
    and the set, and leaves the state as it was: the method body does not
    run and no request is sent.  With a year of the set the call is the call
    of the method body. *)
Theorem supported_years_guard {St A} (years_ : list Z)
    (func : client -> option Z -> M St A) (self : client) (kwargs : option Z) (s : St) :
  let year := default (default_year self) kwargs in
  let declared := match years_ with [] => years self | _ :: _ => years_ end in
  (year ∉ declared ->
     supported_years years_ func self kwargs s
     = (inl (UnsupportedYearException
               ("Geography is not available in " +:+ str_Z year +:+
                ". Available years include " +:+ repr_tuple declared)), s))
  ∧ (year ∈ declared -> supported_years years_ func self kwargs s = func self kwargs s).
Proof.
  intros year declared. split; intros Hy.
  - by apply supported_years_out.
  - by apply supported_years_in.
Qed.

(** ** The ZCTA selector *)

(** Of the selector, [query] sends the "for" and the "in" clause only. *)
Lemma data_request_has_no_regionin (self : client) (fields : pyseq)
    (geo : gmap string string) (year : option Z) (w : world) (for_ : string) :
  ∃ p, params (data_request self fields geo year w for_) = Some p ∧ p !! "regionin" = None.
Proof.
  unfold data_request. simpl. eexists. split; [done|].
  destruct (geo !! "in"); by simplify_map_eq.
Qed.

(** C8.  [ACS5Client.state_zipcode] builds a selector whose "for" clause is
    the ZCTA and whose containment key depends on the year: "in" before
    2020, "regionin" in 2020 and 2021, none from 2022 on; for a supported
    year, this selector is the one passed to [get]. *)
Theorem state_zipcode_year_bands (year : Z) (state_fips zcta : string) :
  let geo := state_zipcode_geo year state_fips zcta in
  geo !! "for" = Some ("zip code tabulation area:" +:+ zcta)
  ∧ (year < 2020 ->
       geo = <["in" := "state:" +:+ state_fips]>
               {["for" := "zip code tabulation area:" +:+ zcta]}
       ∧ geo !! "in" = Some ("state:" +:+ state_fips) ∧ geo !! "regionin" = None)
  ∧ (2020 <= year <= 2021 ->
       geo = <["regionin" := "state:" +:+ state_fips]>
               {["for" := "zip code tabulation area:" +:+ zcta]}
       ∧ geo !! "regionin" = Some ("state:" +:+ state_fips) ∧ geo !! "in" = None)
  ∧ (2022 <= year ->
       geo = {["for" := "zip code tabulation area:" +:+ zcta]}
       ∧ geo !! "in" = None ∧ geo !! "regionin" = None)
  ∧ (∀ fields self kwargs w,
       default (default_year self) kwargs = year ->
       2011 <= year <= 2023 ->
       ACS5Client_state_zipcode fields state_fips zcta self kwargs w
       = ACSClient_get self fields geo None kwargs w).
Proof.
  intros geo. unfold geo, state_zipcode_geo. split_and!.
  - repeat case_match; by simplify_map_eq.
  - intros Hy. rewrite (proj2 (Z.leb_gt _ _)), (proj2 (Z.ltb_lt _ _)) by lia.
    split_and!; by simplify_map_eq.
  - intros Hy. rewrite (proj2 (Z.leb_gt _ _)), (proj2 (Z.ltb_ge _ _)) by lia.
    split_and!; by simplify_map_eq.
  - intros Hy. rewrite (proj2 (Z.leb_le _ _)) by lia.
    split_and!; by simplify_map_eq.
  - intros fields self kwargs w Hyear Hy.
    unfold ACS5Client_state_zipcode.
    rewrite supported_years_in; [by rewrite Hyear|].
    rewrite Hyear. apply list_elem_of_In. simpl. lia.
Qed.

(** ** Retry *)

Lemma retry_loop_recorded {St A} (func : client -> M St A) (self : client) (n : nat) :
  ∀ outs s, ∃ pre r s',
    retry_loop n (recorded func self) (outs, s) = (r, (outs ++ pre ++ [r], s'))
    ∧ retry_loop n (func self) s = (r, s')
    ∧ Forall (fun o => is_transient o = true) pre
    ∧ (length pre <= n)%nat
    ∧ ((length pre < n)%nat -> is_transient r = false)
    ∧ (pre = [] -> (r, s') = func self s).
Proof.
  induction n as [|n IH]; intros outs s.
  - simpl. destruct (func self s) as [r s'] eqn:E.
    exists [], r, s'. simpl. split_and!; (done || lia || by constructor).
  - simpl. destruct (func self s) as [r s1] eqn:E.
    destruct (is_transient r) eqn:Ht.
    + (* a transient failure: the loop goes on *)
      destruct r as [e|a]; [|done]. simpl in Ht.
      destruct (as_CensusException e) as [m|] eqn:Em; [|done]. rewrite Ht.
      destruct (IH (outs ++ [inl e]) s1) as (pre & r & s' & Hrec & Hplain & Hpre & Hlen & Hstop & _).
      exists (inl e :: pre), r, s'. split_and!.
      * rewrite Hrec. by rewrite <- app_assoc.
      * done.
      * constructor; [|done]. simpl. by rewrite Em.
      * simpl. lia.
      * simpl. intros ?. apply Hstop. lia.
      * done.
    + (* a result, or a failure that is not transient: it is the outcome *)
      destruct r as [e|a]; simpl in Ht;
        [destruct (as_CensusException e) eqn:Em; [rewrite Ht|]|];
        (match type of E with _ = (?r, _) => exists [], r, s1 end;
         simpl; split_and!; intros; simpl; rewrite ?Em;
         (done || lia || by constructor)).
Qed.

(** C5 (amended).  The decorated call makes its attempts one after the
    other, each from the state the previous one left.  Every attempt but the
    last failed with a CensusException whose text contains the transient-error
    message; there are at most [max(retries, 1)] attempts, which is the
    configured budget when that is at least 1; the call stops before that
    number only on an outcome that is not such a failure; an outcome of the
    first attempt that is not such a failure is the outcome of the call, and
    nothing else is run.  The budget of a client built without [retries] is 3. *)
Theorem retry_budget_and_propagation {St A} (func : client -> M St A) (self : client) (s : St) :
  ∃ pre r s',
    retry_on_transient_error (recorded func) self ([], s) = (r, (pre ++ [r], s'))
    ∧ retry_on_transient_error func self s = (r, s')
    ∧ Forall (fun o => is_transient o = true) pre
    ∧ (length (pre ++ [r]) <= Z.to_nat (Z.max (retries self) 1))%nat
    ∧ (1 <= retries self -> Z.of_nat (length (pre ++ [r])) <= retries self)
    ∧ ((length (pre ++ [r]) < Z.to_nat (Z.max (retries self) 1))%nat -> is_transient r = false)
    ∧ (is_transient (func self s).1 = false ->
         pre = [] ∧ retry_on_transient_error func self s = func self s)
    ∧ (∀ key year session_, retries (ACS5Client key year session_ None) = 3).
Proof.
  unfold retry_on_transient_error.
  destruct (retry_loop_recorded func self (Z.to_nat (Z.max (retries self - 1) 0)) [] s)
    as (pre & r & s' & Hrec & Hplain & Hpre & Hlen & Hstop & Hfirst).
  exists pre, r, s'. rewrite length_app. simpl. split_and!.
  - done.
  - done.
  - done.
  - lia.
  - lia.
  - intros ?. apply Hstop. lia.
  - intros Hnt. assert (pre = []) as ->.
    { destruct pre as [|o pre]; [done|]. exfalso.
      apply Forall_cons in Hpre as [Ho _].
      destruct (Z.to_nat (Z.max (retries self - 1) 0)) as [|n]; [simpl in Hlen; lia|].
      simpl in Hrec. destruct (func self s) as [r0 s0]. simpl in Hnt.
      assert (∀ x : exn + A, (x, ([x], s0)) = (r, (o :: pre ++ [r], s')) -> False) as Hno.
      { intros x Hx. apply (f_equal (fun y => length y.2.1)) in Hx. simpl in Hx.
        rewrite length_app in Hx. simpl in Hx. lia. }
      destruct r0 as [e|a]; [|by eapply Hno].
      simpl in Hnt. destruct (as_CensusException e); [|by eapply Hno].
      rewrite Hnt in Hrec. by eapply Hno. }
    split; [done|]. rewrite Hplain. by apply Hfirst.
  - done.
Qed.

(** ** The response of the data endpoint *)

Lemma retry_first_outcome {St A} (func : client -> M St A) (self : client) (s : St) :
  is_transient (func self s).1 = false ∨ retries self <= 1 ->
  retry_on_transient_error func self s = func self s.
Proof.
  unfold retry_on_transient_error. intros [Hnt|Hr].
  - destruct (Z.to_nat _) as [|n]; [done|]. simpl.
    destruct (func self s) as [[e|a] s1]; [|done]. simpl in Hnt.
    destruct (as_CensusException e); [|done]. by rewrite Hnt.
  - by replace (Z.to_nat (Z.max (retries self - 1) 0)) with 0%nat by lia.
Qed.

(** One attempt: the append, the request, and the reading of the answer. *)
Lemma query_body_run (self : client) (geo : gmap string string) (year : option Z)
    (sort : bool) (fields : pyseq) (w : world) (for_ : string) :
  geo !! "for" = Some for_ ->
  let req := data_request self (local_fields sort fields) geo year w for_ in
  query_body self geo year sort (fields, w)
  = let '(r, w') := read_response self (local_fields sort fields)
                      (default (default_year self) year) sort
                      (session self (sent w) req) (push_request w req) in
    (r, (arg_after sort fields, w')).
Proof.
  intros Hfor req. unfold req, data_request, query_body, append_geoid, query_params,
    local_fields, arg_after.
  unfold bind, gets, modify, ret, lift, on_world, session_get, push_request.
  destruct sort, fields as [l|l]; simpl; rewrite Hfor; simpl; reflexivity.
Qed.

Lemma query_run (self : client) (geo : gmap string string) (year : option Z)
    (sort : bool) (fields : pyseq) (w : world) r s' :
  query_body self geo year sort (fields, w) = (r, s') ->
  is_transient r = false ∨ retries self <= 1 ->
  query self fields geo year sort w = (r, s'.2).
Proof.
  intros Hb Hnt. unfold query.
  rewrite (retry_first_outcome (fun self => query_body self geo year sort) self (fields, w)).
  - rewrite Hb. by destruct s'.
  - simpl. by rewrite Hb.
Qed.

(** C4.  In an attempt of [query], and in the call when the retry policy
    does not apply, the answer to the data request decides the outcome: a
    204 gives the empty list; a 200 whose body does not decode and contains
    the invalid-key marker raises APIKeyError and not the ValueError of the
    decoder; a status other than 200 and 204 raises CensusException with the
    text of the response. *)
Theorem query_status_handling (self : client) (geo : gmap string string)
    (year : option Z) (sort : bool) (fields : pyseq) (w : world) (for_ : string) :
  geo !! "for" = Some for_ ->
  let req := data_request self (local_fields sort fields) geo year w for_ in
  let resp := session self (sent w) req in
  let w1 := push_request w req in
  (status_code resp = 204 ->
     query_body self geo year sort (fields, w) = (inr [], (arg_after sort fields, w1))
     ∧ query self fields geo year sort w = (inr [], w1))
  ∧ (status_code resp = 200 -> json resp = None ->
     contains "<title>Invalid Key</title>" (text resp) = true ->
     query_body self geo year sort (fields, w)
     = (inl (APIKeyError (join " " (splitlines (text resp)))), (arg_after sort fields, w1))
     ∧ query self fields geo year sort w
       = (inl (APIKeyError (join " " (splitlines (text resp)))), w1))
  ∧ (status_code resp ≠ 200 -> status_code resp ≠ 204 ->
     query_body self geo year sort (fields, w)
     = (inl (CensusException (text resp)), (arg_after sort fields, w1))
     ∧ (contains transient_error (text resp) = false ∨ retries self <= 1 ->
        query self fields geo year sort w = (inl (CensusException (text resp)), w1))).
Proof.
  intros Hfor req resp w1.
  pose proof (query_body_run self geo year sort fields w for_ Hfor) as Hrun.
  simpl in Hrun. fold req in Hrun. fold resp in Hrun. fold w1 in Hrun.
  split_and!.
  - intros H204.
    assert (query_body self geo year sort (fields, w)
            = (inr [], (arg_after sort fields, w1))) as Hb.
    { rewrite Hrun. unfold read_response. rewrite H204. done. }
    split; [done|]. by apply (query_run _ _ _ _ _ _ _ _ Hb); left.
  - intros H200 Hjson Hmark.
    assert (query_body self geo year sort (fields, w)
            = (inl (APIKeyError (join " " (splitlines (text resp)))),
               (arg_after sort fields, w1))) as Hb.
    { rewrite Hrun. unfold read_response. rewrite H200, Hjson, Hmark. done. }
    split; [done|]. by apply (query_run _ _ _ _ _ _ _ _ Hb); left.
  - intros Hn200 Hn204.
    assert (query_body self geo year sort (fields, w)
            = (inl (CensusException (text resp)), (arg_after sort fields, w1))) as Hb.
    { rewrite Hrun. unfold read_response.
      rewrite (proj2 (Z.eqb_neq _ _) Hn200), (proj2 (Z.eqb_neq _ _) Hn204). done. }
    split; [done|]. intros Hnt. apply (query_run _ _ _ _ _ _ _ _ Hb).
    destruct Hnt as [Hnt|Hr]; [left|by right]. simpl. done.
Qed.

(** ** The cache of field types *)





(** One call of [_field_type_body]: the request is sent, and the answer
    decides the outcome. *)
Lemma field_type_body_run (self : client) (field : string) (year : Z) (w : world) :
  let req := definition_request self field year w in
  let resp := session self (sent w) req in
  _field_type_body self field year w
  = (if status_code resp =? 200 then
       match json resp with
       | None => inl ValueError
       | Some (JArray _ _) => inl AttributeError
       | Some (JObject members) =>
           match types (default "string" (members !! "predicateType")) with
           | Some c => inr c
           | None => inl (KeyError (default "string" (members !! "predicateType")))
           end
       end
     else inr cast_str,
     push_request w req).
Proof.
  intros req resp. unfold _field_type_body, bind, gets, session_get, ret, raise.
  fold (definition_request self field year w). fold req. fold resp.
  fold (push_request w req).
  destruct (status_code resp =? 200); [|done].
  destruct (json resp) as [[?|members]|]; try done.
  by destruct (types _).
Qed.

Lemma field_type_hit (self : client) (field : string) (year : Z) (w : world) (c : cast) :
  cache_find (field, year) (field_type_cache w) = Some c ->
  _field_type self field year w
  = (inr c, {| sent := sent w;
               field_type_cache := (field, year, c) :: cache_remove (field, year) (field_type_cache w);
               urls := urls w |}).
Proof.
  intros Hc. unfold _field_type, lru_cache, bind, gets, set_cache, modify, ret.
  by rewrite Hc.
Qed.

Lemma field_type_miss (self : client) (field : string) (year : Z) (w : world) :
  cache_find (field, year) (field_type_cache w) = None ->
  let req := definition_request self field year w in
  _field_type self field year w
  = match (_field_type_body self field year w).1 with
    | inr c => (inr c, {| sent := sent w ++ [req];
                          field_type_cache :=
                            take maxsize ((field, year, c) :: field_type_cache w);
                          urls := urls w |})
    | inl e => (inl e, push_request w req)
    end.
Proof.
  intros Hc req. unfold _field_type, lru_cache, bind at 1, gets at 1. rewrite Hc.
  unfold bind. rewrite field_type_body_run. fold req. simpl.
  match goal with |- context [if ?b then _ else _] => destruct b end; [|done].
  destruct (json _) as [[?|members]|]; try done.
Qed.




(** *** The order of the cache *)



















(** ** Sorting by GEO_ID *)

Section Sorting.
Hypothesis float_ltb_asym : ∀ a b, float_ltb a b = true -> float_ltb b a = false.

Lemma string_ltb_asym (s t : string) : String.ltb s t = true -> String.ltb t s = false.
Proof.
  unfold String.ltb. rewrite (String.compare_antisym s t).
  by destruct (String.compare t s).
Qed.

Lemma value_lt_asym (a b : value) : value_lt a b = inr true -> value_lt b a = inr false.
Proof.
  destruct a, b; simpl; try done; intros [= Hlt]; f_equal.
  - by apply string_ltb_asym.
  - by apply float_ltb_asym.
Qed.

Lemma insert_keyed_perm {A} (kx : value * A) l r :
  insert_keyed kx l = inr r -> r ≡ₚ kx :: l.
Proof.
  revert r. induction l as [|ky l IH]; intros r; simpl.
  - by intros [= <-].
  - destruct (value_lt ky.1 kx.1) as [e|[|]]; simpl; [done| |by intros [= <-]].
    destruct (insert_keyed kx l) as [e|r']; simpl; [done|]. intros [= <-].
    rewrite (IH r' eq_refl). apply Permutation_swap.
Qed.

Lemma insert_keyed_hd {A} (kx z : value * A) l r :
  insert_keyed kx l = inr r -> keyed_le z kx -> HdRel keyed_le z l -> HdRel keyed_le z r.
Proof.
  destruct l as [|ky l]; simpl.
  - intros [= <-] Hz _. by constructor.
  - destruct (value_lt ky.1 kx.1) as [e|[|]]; simpl; [done| |].
    + destruct (insert_keyed kx l) as [e|r']; simpl; [done|]. intros [= <-] _ Hhd.
      constructor. by inversion Hhd.
    + intros [= <-] Hz _. by constructor.
Qed.

Lemma insert_keyed_sorted {A} (kx : value * A) l r :
  Sorted keyed_le l -> insert_keyed kx l = inr r -> Sorted keyed_le r.
Proof.
  revert r. induction l as [|ky l IH]; intros r Hs; simpl.
  - intros [= <-]. by repeat constructor.
  - destruct (value_lt ky.1 kx.1) as [e|[|]] eqn:Hlt; simpl; [done| |].
    + destruct (insert_keyed kx l) as [e|r'] eqn:Hins; simpl; [done|]. intros [= <-].
      apply Sorted_inv in Hs as [Hs Hhd]. constructor; [by apply IH|].
      eapply insert_keyed_hd; [done| |done].
      unfold keyed_le. by apply value_lt_asym.
    + intros [= <-]. constructor; [done|]. by constructor.
Qed.

Lemma sort_keyed_spec {A} (l r : list (value * A)) :
  sort_keyed l = inr r -> r ≡ₚ l ∧ Sorted keyed_le r.
Proof.
  revert r. induction l as [|kx l IH]; intros r; simpl.
  - intros [= <-]. split; [done|constructor].
  - destruct (sort_keyed l) as [e|r'] eqn:Hs; simpl; [done|]. intros Hins.
    destruct (IH r' eq_refl) as [Hperm Hsorted]. split.
    + rewrite (insert_keyed_perm _ _ _ Hins). by constructor.
    + by eapply insert_keyed_sorted.
Qed.

Lemma emap_key_item (results : list (gmap string value)) keyed :
  emap key_item results = inr keyed ->
  keyed.*2 = results ∧ Forall (fun kx => kx.2 !! GEO_ID = Some kx.1) keyed.
Proof.
  revert keyed. induction results as [|x results IH]; intros keyed; simpl.
  - intros [= <-]. by split.
  - unfold key_item at 1. destruct (x !! GEO_ID) as [k|] eqn:Hk; simpl; [|done].
    destruct (emap key_item results) as [e|keyed']; simpl; [done|]. intros [= <-].
    destruct (IH keyed' eq_refl) as [<- Hall]. split; [done|]. by constructor.
Qed.

Lemma sorted_rows_ordered (r : list (value * gmap string value)) :
  Forall (fun kx => kx.2 !! GEO_ID = Some kx.1) r ->
  Sorted keyed_le r -> Sorted geoid_le (r.*2).
Proof.
  induction r as [|kx r IH]; intros Hall Hs; simpl; [constructor|].
  apply Forall_cons in Hall as [Hkx Hall]. apply Sorted_inv in Hs as [Hs Hhd].
  constructor; [by apply IH|].
  destruct r as [|ky r]; simpl; constructor.
  apply Forall_cons in Hall as [Hky _]. apply HdRel_inv in Hhd.
  by exists kx.1, ky.1.
Qed.

(** [sorted(results, key=lambda x: x['GEO_ID'])] returns the rows it was
    given, GEO_ID included, in the order of their GEO_ID. *)
Lemma sorted_key_item_spec (results rows : list (gmap string value)) :
  sorted key_item results = inr rows -> rows ≡ₚ results ∧ Sorted geoid_le rows.
Proof.
  unfold sorted. destruct (emap key_item results) as [e|keyed] eqn:Hk; simpl; [done|].
  destruct (sort_keyed keyed) as [e|r] eqn:Hs; simpl; [done|]. intros [= <-].
  destruct (emap_key_item _ _ Hk) as [<- Hall].
  destruct (sort_keyed_spec _ _ Hs) as [Hperm Hsorted]. split.
  - by rewrite Hperm.
  - apply sorted_rows_ordered; [|done]. by rewrite Hperm.
Qed.
End Sorting.

(** The rows sorted with [key_item] all hold a GEO_ID. *)
Lemma sorted_key_item_keeps_geoid (results rows : list (gmap string value)) :
  sorted key_item results = inr rows -> Forall (fun row => is_Some (row !! GEO_ID)) rows.
Proof.
  unfold sorted. destruct (emap key_item results) as [e|keyed] eqn:Hk; simpl; [done|].
  destruct (sort_keyed keyed) as [e|r] eqn:Hs; simpl; [done|]. intros [= <-].
  destruct (emap_key_item _ _ Hk) as [_ Hall].
  assert (r ≡ₚ keyed) as Hperm.
  { clear Hk Hall. revert r Hs. induction keyed as [|kx l IH]; intros r; simpl.
    - by intros [= <-].
    - destruct (sort_keyed l) as [e|r'] eqn:Hs'; simpl; [done|]. intros Hins.
      apply insert_keyed_perm in Hins. rewrite Hins. constructor. by apply IH. }
  rewrite <- Hperm in Hall. apply Forall_fmap. eapply Forall_impl; [exact Hall|].
  intros kx Hkx. simpl. by rewrite Hkx.
Qed.

(** After the append the test [if 'GEO_ID' in fields] of [query] is true:
    the branch that pops GEO_ID from the rows is never taken. *)
Lemma geoid_in_local_fields (fields : pyseq) : GEO_ID ∈ items (local_fields true fields).
Proof. destruct fields as [l|l]; simpl; apply elem_of_app; right; by left. Qed.

(** ** The identity field in a chunked get *)

Lemma get_param_data_request (self : client) (fields : pyseq) (geo : gmap string string)
    (year : option Z) (w : world) (for_ : string) :
  get_param (data_request self fields geo year w for_) = Some (join "," (items fields)).
Proof.
  unfold get_param, data_request. simpl. destruct (geo !! "in"); by simplify_map_eq.
Qed.

(** C3 (amended).  [get] passes to the query of every chunk the flag
    [sort_by_geoid], which is set exactly when there are more than 49 fields
    and the year is unspecified (None, or the falsy 0) or greater than 2009,
    whether or not GEO_ID is among the requested fields.  With the flag set
    an attempt requests the fields of the chunk followed by GEO_ID and
    returns the rows of a 200 answer sorted by their GEO_ID; with the flag
    unset it requests the fields of the chunk only and returns the rows in
    the order of the answer. *)
Theorem geoid_appended_and_sorted (self : client) (fields : pyseq)
    (geo : gmap string string) (year : option Z) :
  let sort := sort_by_geoid fields year in
  (sort = true <->
     (49 < len fields)%nat ∧ (year = None ∨ year = Some 0 ∨ ∃ y, year = Some y ∧ 2009 < y))
  ∧ Client_get self fields geo year
    = (all_results <- run_each (fun chunk => query self chunk geo year sort)
                               (chunks fields 49) ;;
       ret (merge <$> zip_star all_results))
  ∧ (∀ chunk w for_, geo !! "for" = Some for_ ->
       let req := data_request self (local_fields sort chunk) geo year w for_ in
       get_param req = Some (join "," (items chunk ++ (if sort then [GEO_ID] else [])))
       ∧ query_body self geo year sort (chunk, w)
         = let '(r, w') := read_response self (local_fields sort chunk)
                             (default (default_year self) year) sort
                             (session self (sent w) req) (push_request w req) in
           (r, (arg_after sort chunk, w')))
  ∧ (∀ chunk y resp w headers data types w1 results,
       status_code resp = 200 -> json resp = Some (JArray headers data) ->
       run_each (fun header => _field_type self header y) headers w = (inr types, w1) ->
       emap (build_row headers types) data = inr results ->
       (sort = false -> read_response self chunk y sort resp w = (inr results, w1))
       ∧ (sort = true ->
            read_response self (local_fields sort chunk) y sort resp w
            = (sorted key_item results, w1)
            ∧ ((∀ a b, float_ltb a b = true -> float_ltb b a = false) ->
               ∀ rows, sorted key_item results = inr rows ->
                       rows ≡ₚ results ∧ Sorted geoid_le rows))).
Proof.
  intros sort. split_and!.
  - unfold sort, sort_by_geoid. rewrite andb_true_iff, Nat.ltb_lt. split.
    + intros [Hlen Hy]. split; [done|]. destruct year as [y|]; [|by left].
      right. apply orb_true_iff in Hy as [->%Z.eqb_eq|Hy%Z.ltb_lt]; [by left|].
      right. by exists y.
    + intros [Hlen Hy]. split; [done|].
      destruct Hy as [->|[->|(y & -> & Hy)]]; [done|done|].
      apply orb_true_iff. right. by apply Z.ltb_lt.
  - done.
  - intros chunk w for_ Hfor req. split.
    + unfold req. rewrite get_param_data_request. unfold local_fields.
      destruct sort; [|by rewrite app_nil_r]. by destruct chunk.
    + by apply query_body_run.
  - intros chunk y resp w headers data types w1 results H200 Hjson Htypes Hrows. split.
    + intros ->. unfold read_response. rewrite H200, Hjson. simpl.
      unfold bind, ret, lift. rewrite Htypes, Hrows. done.
    + intros Hsort. rewrite Hsort. split.
      * unfold read_response. rewrite H200, Hjson. simpl.
        unfold bind, ret, lift. rewrite Htypes, Hrows.
        rewrite bool_decide_eq_true_2 by apply geoid_in_local_fields. done.
      * intros Hasym rows. by apply sorted_key_item_spec.
Qed.

(** ** Field typing *)

Lemma emap_Forall2 {A B} (f : A -> exn + B) (l : list A) (ys : list B) :
  emap f l = inr ys -> Forall2 (fun x y => f x = inr y) l ys.
Proof.
  revert ys. induction l as [|x l IH]; intros ys; simpl.
  - intros [= <-]. constructor.
  - destruct (f x) as [e|y] eqn:Hx; simpl; [done|].
    destruct (emap f l) as [e|ys']; simpl; [done|]. intros [= <-].
    constructor; [done|]. by apply IH.
Qed.

Lemma run_each_length {St A B} (f : A -> M St B) (l : list A) (s s' : St) (ys : list B) :
  run_each f l s = (inr ys, s') -> length ys = length l.
Proof.
  revert s ys. induction l as [|x l IH]; intros s ys; simpl.
  - unfold ret. by intros [= <- _].
  - unfold bind, ret. destruct (f x s) as [[e|y] s1]; [done|].
    destruct (run_each f l s1) as [[e|ys'] s2] eqn:E; [done|].
    intros [= <- <-]. simpl. f_equal. by eapply IH.
Qed.

Lemma fst_zip_take {A B} (l : list A) (k : list B) : (zip l k).*1 = take (length k) l.
Proof.
  revert k. induction l as [|x l IH]; intros [|y k]; simpl; try done.
  f_equal. apply IH.
Qed.

Lemma sort_keyed_perm {A} (l r : list (value * A)) : sort_keyed l = inr r -> r ≡ₚ l.
Proof.
  revert r. induction l as [|kx l IH]; intros r; simpl.
  - by intros [= <-].
  - destruct (sort_keyed l) as [e|r'] eqn:Hs; simpl; [done|]. intros Hins.
    apply insert_keyed_perm in Hins. rewrite Hins. constructor. by apply IH.
Qed.
















End Properties.

(** * Further properties of the code *)

Section MoreProperties.
Context `{PyFloat}.

(** ** chunks and merge *)

(** X1.  For a positive size [n], chunk [i] of [chunks l n] holds the items
    of [l] from position [i * n] on, at most [n] of them; it is of the kind
    of [l]; it is never empty; and every chunk but the last holds exactly
    [n] items. *)
Theorem chunks_shape (l : pyseq) (n i : nat) (c : pyseq) :
  (0 < n)%nat ->
  chunks l n !! i = Some c ->
  c = with_items l (take n (drop (i * n) (items l)))
  ∧ (1 <= len c <= n)%nat
  ∧ (S i < length (chunks l n) -> len c = n)%nat.
Proof.
  intros Hn Hc.
  assert (Hi : (i < ceil_div (len l) n)%nat).
  { rewrite <- length_chunks. by eapply lookup_lt_Some. }
  unfold chunks, range_step in Hc. rewrite <- list_fmap_compose in Hc.
  rewrite list_lookup_fmap in Hc. fold (ceil_div (len l) n) in Hc.
  rewrite lookup_seq_lt in Hc by done. simpl in Hc. injection Hc as <-.
  unfold slice. replace (i * n + n - i * n)%nat with n by lia.
  destruct (ceil_div_spec (len l) n Hn) as [Hlo Hhi].
  assert (Hlen : len (with_items l (take n (drop (i * n) (items l))))
                 = Nat.min n (len l - i * n)).
  { unfold len. destruct l; simpl; by rewrite length_take, length_drop. }
  assert (i * n < len l)%nat by nia.
  split_and!.
  - done.
  - rewrite Hlen. lia.
  - rewrite Hlen. lia.
  - rewrite length_chunks, Hlen. intros Hlast.
    assert (S i * n < len l + n)%nat by nia. nia.
Qed.

(** X2.  [merge] holds a key exactly when one of the dicts holds it, with the
    value of the last dict that holds it. *)
Theorem merge_last_wins (dicts : list (gmap string value)) (k : string) (v : value) :
  merge dicts !! k = Some v <->
  ∃ i d, dicts !! i = Some d ∧ d !! k = Some v
         ∧ ∀ j d', (i < j)%nat -> dicts !! j = Some d' -> d' !! k = None.
Proof.
  induction dicts as [|d dicts IH] using rev_ind.
  - unfold merge. simpl. rewrite lookup_empty. split; [done|].
    by intros (i & d & Hi & _).
  - rewrite lookup_merge_snoc. destruct (d !! k) as [v'|] eqn:Hd.
    + split.
      * intros [= ->]. exists (length dicts), d. split_and!; [|done|].
        -- by rewrite lookup_app_r, Nat.sub_diag.
        -- intros j d' Hj Hlook. apply lookup_lt_Some in Hlook.
           rewrite length_app in Hlook. simpl in Hlook. lia.
      * intros (i & d0 & Hi & Hk & Hlast).
        destruct (decide (i = length dicts)) as [->|Hne].
        -- rewrite lookup_app_r, Nat.sub_diag in Hi by done. simpl in Hi. congruence.
        -- assert (i < length dicts)%nat.
           { apply lookup_lt_Some in Hi. rewrite length_app in Hi. simpl in Hi. lia. }
           specialize (Hlast (length dicts) d ltac:(lia)).
           rewrite lookup_app_r, Nat.sub_diag in Hlast by done.
           specialize (Hlast eq_refl). congruence.
    + rewrite IH. split.
      * intros (i & d0 & Hi & Hk & Hlast). exists i, d0. split_and!; [|done|].
        -- by apply lookup_app_l_Some.
        -- intros j d' Hj Hlook.
           destruct (decide (j < length dicts)%nat) as [Hlt|Hge].
           ++ rewrite lookup_app_l in Hlook by done. by eapply Hlast.
           ++ rewrite lookup_app_r in Hlook by lia.
              destruct (j - length dicts)%nat; simpl in Hlook; [|done]. congruence.
      * intros (i & d0 & Hi & Hk & Hlast).
        destruct (decide (i < length dicts)%nat) as [Hlt|Hge].
        -- rewrite lookup_app_l in Hi by done. exists i, d0. split_and!; [done|done|].
           intros j d' Hj Hlook. eapply Hlast; [done|]. by apply lookup_app_l_Some.
        -- rewrite lookup_app_r in Hi by lia.
           destruct (i - length dicts)%nat; simpl in Hi; [|done]. congruence.
Qed.

(** ** The rows of an answer *)

Lemma dom_foldl_insert (kvs : list (string * value)) (m : gmap string value) :
  dom (foldl (fun m '(header, v) => <[header := v]> m) m kvs)
  = dom m ∪ list_to_set kvs.*1.
Proof.
  revert m. induction kvs as [|[h v] kvs IH]; intros m; simpl.
  - by rewrite (right_id_L ∅ (∪)).
  - rewrite IH, dom_insert_L. by rewrite (assoc_L (∪)), (comm_L (∪) {[h]}).
Qed.

Lemma dom_build_row (headers : list string) (types : list cast) (d : list (option string))
    (x : gmap string value) :
  length types = length headers ->
  build_row headers types d = inr x ->
  dom x = list_to_set (take (length d) headers).
Proof.
  intros Hlen. unfold build_row.
  destruct (emap _ (zip (zip headers types) d)) as [e|kvs] eqn:Hk; simpl; [done|].
  intros [= <-]. rewrite dom_foldl_insert, dom_empty_L, (left_id_L ∅ (∪)). f_equal.
  apply emap_Forall2 in Hk.
  assert (kvs.*1 = (zip (zip headers types) d).*1.*1) as ->.
  { clear Hlen. induction Hk as [|[[h c] item] [h' v] l kvs Hx _ IH]; simpl; [done|].
    f_equal; [|done]. destruct (cast_item c item); simpl in Hx; congruence. }
  rewrite fst_zip_take, fmap_take, fst_zip_take, Hlen.
  by rewrite (take_ge headers (length headers)).
Qed.

Lemma take_subseteq_set (n : nat) (l : list string) :
  (list_to_set (take n l) : gset string) ⊆ list_to_set l.
Proof.
  intros x. rewrite !elem_of_list_to_set. intros Hx.
  rewrite <- (take_drop n l). apply elem_of_app. by left.
Qed.

(** What [sorted] returns holds one item for each item it was given, each
    of them what the key function left of an item. *)
Lemma sorted_items {A} (key : A -> exn + value * A) (results rows : list A) :
  sorted key results = inr rows ->
  length rows = length results
  ∧ Forall (fun row => ∃ x k, x ∈ results ∧ key x = inr (k, row)) rows.
Proof.
  unfold sorted. destruct (emap key results) as [e|keyed] eqn:Hk; simpl; [done|].
  destruct (sort_keyed keyed) as [e|r] eqn:Hs; simpl; [done|]. intros [= <-].
  apply sort_keyed_perm in Hs. apply emap_Forall2 in Hk. split.
  - rewrite length_fmap, Hs. symmetry. by eapply Forall2_length.
  - apply Forall_fmap. rewrite Hs. apply Forall_forall. intros [k row] Hin. simpl.
    apply list_elem_of_lookup in Hin as [i Hi].
    destruct (Forall2_lookup_r _ _ _ _ _ Hk Hi) as (x & Hx & Hkey).
    exists x, k. split; [|done]. apply list_elem_of_lookup. by exists i.
Qed.

(** X3.  When [query] reads a 200 answer holding a table and returns rows,
    there is one row for each data row of the table and every row has only
    header names as keys; when nothing is sorted, row [i] comes from data row
    [i] and its keys are the first headers, as many as the data row has
    cells. *)
Theorem read_response_rows (self : client) (fields : pyseq) (year : Z) (sort : bool)
    (resp : response) (w w' : world) (headers : list string)
    (data : list (list (option string))) (rows : list (gmap string value)) :
  status_code resp = 200 -> json resp = Some (JArray headers data) ->
  read_response self fields year sort resp w = (inr rows, w') ->
  length rows = length data
  ∧ Forall (fun row => dom row ⊆ list_to_set headers) rows
  ∧ (sort = false ->
       ∀ i row, rows !! i = Some row ->
         ∃ d, data !! i = Some d ∧ dom row = list_to_set (take (length d) headers)).
Proof.
  intros H200 Hjson. unfold read_response. rewrite H200, Hjson. simpl.
  unfold bind, ret, lift.
  destruct (run_each _ headers w) as [[e|types] w1] eqn:Htypes; [done|].
  apply run_each_length in Htypes.
  destruct (emap (build_row headers types) data) as [e|results] eqn:Hres; [done|].
  apply emap_Forall2 in Hres.
  assert (Hdom : Forall (fun x => dom x ⊆ list_to_set headers) results).
  { apply Forall_forall. intros x [i Hi]%list_elem_of_lookup.
    destruct (Forall2_lookup_r _ _ _ _ _ Hres Hi) as (d & _ & Hd).
    rewrite (dom_build_row _ _ _ _ Htypes Hd). apply take_subseteq_set. }
  assert (Hsorted : ∀ key : gmap string value -> exn + value * gmap string value,
            (∀ x k x', key x = inr (k, x') -> dom x' ⊆ dom x) ->
            sorted key results = inr rows ->
            length rows = length data
            ∧ Forall (fun row => dom row ⊆ list_to_set headers) rows).
  { intros key Hkey Hs. destruct (sorted_items _ _ _ Hs) as [Hlen Hall]. split.
    - rewrite Hlen. symmetry. by eapply Forall2_length.
    - eapply Forall_impl; [exact Hall|]. intros row (x & k & Hx & Hk).
      rewrite Forall_forall in Hdom. etrans; [by eapply Hkey|]. by apply Hdom. }
  destruct sort.
  - destruct (bool_decide (GEO_ID ∈ items fields)); intros Hs;
      (assert (sorted key_item results = inr rows ∨ sorted key_pop results = inr rows)
         as Hs' by (simplify_eq; eauto)); clear Hs;
      (destruct Hs' as [Hs|Hs];
       [destruct (Hsorted key_item) as [Hl Hd]; [|done|by split_and!]
       |destruct (Hsorted key_pop) as [Hl Hd]; [|done|by split_and!]]).
    + intros x k x'. unfold key_item. destruct (x !! GEO_ID); [|done]. by intros [= _ <-].
    + intros x k x'. unfold key_pop. destruct (x !! GEO_ID); [|done]. intros [= _ <-].
      rewrite dom_delete_L. apply subseteq_difference_l. done.
    + intros x k x'. unfold key_item. destruct (x !! GEO_ID); [|done]. by intros [= _ <-].
    + intros x k x'. unfold key_pop. destruct (x !! GEO_ID); [|done]. intros [= _ <-].
      rewrite dom_delete_L. apply subseteq_difference_l. done.
  - intros [= <- _]. split_and!; [symmetry; by eapply Forall2_length|done|].
    intros _ i row Hi. destruct (Forall2_lookup_r _ _ _ _ _ Hres Hi) as (d & Hd & Hb).
    exists d. split; [done|]. by eapply dom_build_row.
Qed.

(** ** A selector without a "for" clause *)

Lemma query_body_no_for (self : client) (geo : gmap string string) (year : option Z)
    (sort : bool) (fields : pyseq) (w : world) :
  geo !! "for" = None ->
  query_body self geo year sort (fields, w)
  = (inl (KeyError "for"), (arg_after sort fields, w)).
Proof.
  intros Hfor. unfold query_body, append_geoid, query_params, arg_after.
  unfold bind, gets, modify, ret, lift, on_world.
  destruct sort, fields as [l|l]; simpl; rewrite Hfor; reflexivity.
Qed.

(** X4.  With a selector that has no "for" clause, [get] sends no request:
    it raises KeyError for "for" at the first chunk when there are fields,
    and returns the empty list when there are none. *)
Theorem get_without_for (self : client) (fields : pyseq) (geo : gmap string string)
    (year : option Z) (w : world) :
  geo !! "for" = None ->
  Client_get self fields geo year w
  = (if decide (len fields = 0%nat) then inr [] else inl (KeyError "for"), w).
Proof.
  intros Hfor. unfold Client_get, get, bind.
  destruct (chunks fields 49) as [|c cs] eqn:Hc.
  - simpl. unfold ret. rewrite decide_True; [done|].
    assert (ceil_div (len fields) 49 = 0%nat) as Hz by (by rewrite <- length_chunks, Hc).
    destruct (ceil_div_spec (len fields) 49 ltac:(lia)) as [Hle _].
    rewrite Hz in Hle. lia.
  - simpl. unfold bind.
    rewrite (query_run self geo year _ c w _ _ (query_body_no_for _ _ _ _ _ _ Hfor))
      by (by left).
    simpl. rewrite decide_False; [done|].
    intros H0. rewrite chunks_empty in Hc by (done || lia). done.
Qed.

(** ** More on the cache of field types *)


(** X6.  When [_field_type] raises, the pair was not in the cache, the
    request was sent and answered with a 200, and nothing was stored: the
    cache is what it was.  The exception is the ValueError of an answer that
    does not decode, AttributeError for an array, or KeyError for a predicate
    type that the table [types] does not have. *)
Theorem field_type_error_not_cached (self : client) (field : string) (year : Z)
    (w w' : world) (e : exn) :
  _field_type self field year w = (inl e, w') ->
  let req := definition_request self field year w in
  let resp := session self (sent w) req in
  cache_find (field, year) (field_type_cache w) = None
  ∧ w' = push_request w req
  ∧ field_type_cache w' = field_type_cache w
  ∧ status_code resp = 200
  ∧ ((e = ValueError ∧ json resp = None)
     ∨ (e = AttributeError ∧ ∃ headers data, json resp = Some (JArray headers data))
     ∨ (∃ members, json resp = Some (JObject members)
          ∧ types (default "string" (members !! "predicateType")) = None
          ∧ e = KeyError (default "string" (members !! "predicateType")))).
Proof.
  intros Hcall req resp.
  destruct (cache_find (field, year) (field_type_cache w)) as [c|] eqn:Hc.
  { by rewrite (field_type_hit _ _ _ _ _ Hc) in Hcall. }
  rewrite (field_type_miss _ _ _ _ Hc), field_type_body_run in Hcall. simpl in Hcall.
  fold req in Hcall. fold resp in Hcall.
  destruct (status_code resp =? 200) eqn:H200; [|done].
  apply Z.eqb_eq in H200.
  destruct (json resp) as [[headers data|members]|] eqn:Hjson.
  - injection Hcall as <- <-. split_and!; try done. right. left. eauto.
  - destruct (types _) eqn:Htypes; [done|]. injection Hcall as <- <-.
    split_and!; try done. right. right. eauto.
  - injection Hcall as <- <-. split_and!; try done. by left.
Qed.

(** ** The requests of a call *)

Lemma data_request_urls (self : client) fields geo year (w1 w : world) for_ :
  urls w1 = urls w ->
  data_request self fields geo year w1 for_ = data_request self fields geo year w for_.
Proof. intros Hu. unfold data_request. by rewrite Hu. Qed.

Lemma definition_request_urls (self : client) field year (w1 w : world) :
  urls w1 = urls w ->
  definition_request self field year w1 = definition_request self field year w.
Proof. intros Hu. unfold definition_request. by rewrite Hu. Qed.

Lemma request_of_urls (self : client) geo year (w1 w : world) (r : request) :
  urls w1 = urls w -> request_of self geo year w1 r -> request_of self geo year w r.
Proof.
  intros Hu [(fields & for_ & Hfor & ->)|(field & ->)]; [left|right].
  - exists fields, for_. split; [done|]. by apply data_request_urls.
  - exists field. by apply definition_request_urls.
Qed.

Lemma sends_only_refl (self : client) geo year (w : world) : sends_only self geo year w w.
Proof. split; [done|]. exists []. by rewrite app_nil_r. Qed.

Lemma sends_only_trans (self : client) geo year (w1 w2 w3 : world) :
  sends_only self geo year w1 w2 -> sends_only self geo year w2 w3 ->
  sends_only self geo year w1 w3.
Proof.
  intros [Hu1 (n1 & Hs1 & Hn1)] [Hu2 (n2 & Hs2 & Hn2)]. split; [congruence|].
  exists (n1 ++ n2). split; [by rewrite Hs2, Hs1, app_assoc|].
  apply Forall_app. split; [done|].
  eapply Forall_impl; [exact Hn2|]. intros r. by apply request_of_urls.
Qed.

Lemma sends_only_push (self : client) geo year (w : world) (r : request) :
  request_of self geo year w r -> sends_only self geo year w (push_request w r).
Proof. intros Hr. split; [done|]. exists [r]. split; [done|]. by constructor. Qed.

Lemma field_type_sends_only (self : client) geo year (field : string) (w w' : world)
    (r : exn + cast) :
  _field_type self field (default (default_year self) year) w = (r, w') ->
  sends_only self geo year w w'.
Proof.
  intros Hcall.
  destruct (cache_find (field, default (default_year self) year) (field_type_cache w))
    as [c|] eqn:Hc.
  - rewrite (field_type_hit _ _ _ _ _ Hc) in Hcall. injection Hcall as <- <-.
    split; [done|]. exists []. by rewrite app_nil_r.
  - rewrite (field_type_miss _ _ _ _ Hc) in Hcall.
    assert (urls w' = urls w
            ∧ sent w' = sent w ++ [definition_request self field
                                     (default (default_year self) year) w]) as [Hu Hs].
    { destruct (_field_type_body _ _ _ _).1; by injection Hcall as <- <-. }
    split; [done|]. eexists. split; [done|]. constructor; [|done]. right. by exists field.
Qed.

Lemma run_each_sends_only {A B} (self : client) geo year (f : A -> M world B) :
  (∀ x w r w', f x w = (r, w') -> sends_only self geo year w w') ->
  ∀ l w r w', run_each f l w = (r, w') -> sends_only self geo year w w'.
Proof.
  intros Hf l. induction l as [|x l IH]; intros w r w'; simpl.
  - unfold ret. intros [= _ <-]. apply sends_only_refl.
  - unfold bind, ret. destruct (f x w) as [[e|y] w1] eqn:Hx.
    + intros [= _ <-]. by eapply Hf.
    + destruct (run_each f l w1) as [r2 w2] eqn:Hrest. intros Hres.
      assert (w' = w2) as -> by (destruct r2; congruence).
      eapply sends_only_trans; [by eapply Hf|by eapply IH].
Qed.

Lemma read_response_sends_only (self : client) geo year fields sort resp (w w' : world)
    (r : exn + list (gmap string value)) :
  read_response self fields (default (default_year self) year) sort resp w = (r, w') ->
  sends_only self geo year w w'.
Proof.
  unfold read_response.
  destruct (status_code resp =? 200); [|destruct (status_code resp =? 204)].
  - unfold bind at 1.
    destruct (json resp) as [[headers data|members]|].
    + unfold ret at 1. unfold bind at 1.
      destruct (run_each _ headers w) as [[e|types] w1] eqn:Htypes;
        (assert (sends_only self geo year w w1) as Hs
           by (eapply (run_each_sends_only self geo year); [|exact Htypes];
               intros ? ? ? ?; apply field_type_sends_only)).
      * by intros [= _ <-].
      * unfold bind, lift, ret.
        destruct (emap (build_row headers types) data); [by intros [= _ <-]|].
        destruct sort; [destruct (bool_decide _)|]; by intros [= _ <-].
    + unfold ret, raise. intros [= _ <-]. apply sends_only_refl.
    + destruct (contains _ _); unfold raise; intros [= _ <-]; apply sends_only_refl.
  - unfold ret. intros [= _ <-]. apply sends_only_refl.
  - unfold raise. intros [= _ <-]. apply sends_only_refl.
Qed.

Lemma query_body_sends_only (self : client) geo year sort (fields fields' : pyseq)
    (w w' : world) (r : exn + list (gmap string value)) :
  query_body self geo year sort (fields, w) = (r, (fields', w')) ->
  sends_only self geo year w w'.
Proof.
  destruct (geo !! "for") as [for_|] eqn:Hfor.
  - rewrite (query_body_run _ _ _ _ _ _ _ Hfor). simpl.
    destruct (read_response _ _ _ _ _ _) as [r1 w1] eqn:Hread. intros [= _ _ <-].
    eapply sends_only_trans; [|by eapply read_response_sends_only].
    apply sends_only_push. left. eauto.
  - rewrite (query_body_no_for _ _ _ _ _ _ Hfor). intros [= _ _ <-].
    apply sends_only_refl.
Qed.

Lemma retry_loop_sends_only (self : client) geo year sort (n : nat) :
  ∀ fields w r fields' w',
    retry_loop n (query_body self geo year sort) (fields, w) = (r, (fields', w')) ->
    sends_only self geo year w w'.
Proof.
  induction n as [|n IH]; intros fields w r fields' w'; simpl.
  - apply query_body_sends_only.
  - destruct (query_body self geo year sort (fields, w)) as [r1 [f1 w1]] eqn:Hb.
    apply query_body_sends_only in Hb.
    destruct r1 as [e|a]; [|by intros [= _ _ <-]].
    destruct (as_CensusException e); [|by intros [= _ _ <-]].
    destruct (contains transient_error _); [|by intros [= _ _ <-]].
    intros Hrest. eapply sends_only_trans; [done|by eapply IH].
Qed.

Lemma query_sends_only (self : client) geo year sort fields (w w' : world)
    (r : exn + list (gmap string value)) :
  query self fields geo year sort w = (r, w') -> sends_only self geo year w w'.
Proof.
  unfold query, retry_on_transient_error.
  destruct (retry_loop _ _ (fields, w)) as [r1 [f1 w1]] eqn:Hloop.
  intros [= _ <-]. by eapply retry_loop_sends_only.
Qed.

Lemma Client_get_sends_only (self : client) (fields : pyseq) (geo : gmap string string)
    (year : option Z) (w w' : world) (out : exn + list (gmap string value)) :
  Client_get self fields geo year w = (out, w') -> sends_only self geo year w w'.
Proof.
  unfold Client_get, get, bind.
  destruct (run_each _ (chunks fields 49) w) as [r1 w1] eqn:Hrun. intros Hout.
  assert (w' = w1) as -> by (destruct r1; unfold ret in Hout; congruence).
  eapply (run_each_sends_only self geo year) in Hrun; [exact Hrun|].
  intros c w0 r w2. apply query_sends_only.
Qed.

(** X8.  What [get] sends: it never changes the URL templates, it removes
    nothing from what was sent before, and every request it adds is a data
    request for its selector or the definition request of a field, built
    from the templates and for the year of the call. *)
Theorem get_sends_only (self : client) (fields : pyseq) (geo : gmap string string)
    (year : option Z) (w w' : world) (out : exn + list (gmap string value)) :
  Client_get self fields geo year w = (out, w') ->
  urls w' = urls w
  ∧ ∃ new, sent w' = sent w ++ new
           ∧ Forall (fun r =>
                (∃ fields' for_, geo !! "for" = Some for_
                                 ∧ r = data_request self fields' geo year w for_)
                ∨ (∃ field, r = definition_request self field
                                  (default (default_year self) year) w)) new.
Proof. apply Client_get_sends_only. Qed.

(** ** Year routing *)

Lemma append_cons (a : ascii) (s t : string) : String a s +:+ t = String a (s +:+ t).
Proof. reflexivity. Qed.

Lemma append_nil_r (s : string) : s +:+ "" = s.
Proof. induction s as [|a s IH]; [done|]. by rewrite append_cons, IH. Qed.

Lemma append_assoc (s t u : string) : (s +:+ t) +:+ u = s +:+ (t +:+ u).
Proof. induction s as [|a s IH]; [done|]. by rewrite !append_cons, IH. Qed.

(** The family that a set of templates puts between the year and the
    dataset. *)
Lemma templates_goes_to (self : client) (geo : gmap string string) (year : option Z)
    (w : world) (family : string) (r : request) :
  (∀ a b, pct_format (endpoint_url (urls w)) [a; b]
          = "https://api.census.gov/data/" +:+ a +:+ family +:+ b) ->
  (∀ a b c, pct_format (definition_url (urls w)) [a; b; c]
            = "https://api.census.gov/data/" +:+ a +:+ family +:+ b
              +:+ "/variables/" +:+ c +:+ ".json") ->
  request_of self geo year w r ->
  goes_to (data_url family self (default (default_year self) year)) r.
Proof.
  intros Hdata Hdef [(fields & for_ & _ & ->)|(field & ->)]; [left|right].
  - unfold data_request, data_url. simpl. split; [apply Hdata|done].
  - exists field. unfold definition_request, data_url. simpl. split; [|done].
    rewrite Hdef. by rewrite !append_assoc.
Qed.


Lemma ACS_templates_format :
  (∀ a b, pct_format (endpoint_url ACS_templates) [a; b]
          = "https://api.census.gov/data/" +:+ a +:+ "/acs/" +:+ b)
  ∧ (∀ a b c, pct_format (definition_url ACS_templates) [a; b; c]
              = "https://api.census.gov/data/" +:+ a +:+ "/acs/" +:+ b
                +:+ "/variables/" +:+ c +:+ ".json").
Proof.
  split; [|reflexivity]. intros a b.
  transitivity ("https://api.census.gov/data/" +:+ a +:+ "/acs/" +:+ (b +:+ ""));
    [reflexivity|by rewrite append_nil_r].
Qed.

Lemma dec_templates_format :
  (∀ a b, pct_format (endpoint_url dec_templates) [a; b]
          = "https://api.census.gov/data/" +:+ a +:+ "/dec/" +:+ b)
  ∧ (∀ a b c, pct_format (definition_url dec_templates) [a; b; c]
              = "https://api.census.gov/data/" +:+ a +:+ "/dec/" +:+ b
                +:+ "/variables/" +:+ c +:+ ".json").
Proof.
  split; [|reflexivity]. intros a b.
  transitivity ("https://api.census.gov/data/" +:+ a +:+ "/dec/" +:+ (b +:+ ""));
    [reflexivity|by rewrite append_nil_r].
Qed.

(** The requests of the call of [Client.get] are for the year passed by
    position, else for the year keyword, else for the default year. *)
Lemma Client_get_args_sends_only (self : client) (fields : pyseq)
    (geo : gmap string string) (args kwargs : option Z) (w w' : world)
    (out : exn + list (gmap string value)) :
  Client_get_args self fields geo args kwargs w = (out, w') ->
  sends_only self geo (match args with Some year => Some year | None => kwargs end) w w'.
Proof.
  unfold Client_get_args. destruct args as [year|]; [destruct kwargs as [y|]|].
  - unfold raise. intros [= _ <-]. apply sends_only_refl.
  - apply Client_get_sends_only.
  - apply Client_get_sends_only.
Qed.

(** [get] after an assignment of the templates. *)
Lemma switched_get_goes_to (self : client) (fields : pyseq) (geo : gmap string string)
    (args kwargs : option Z) (w w' : world) (T : templates) (family : string)
    (out : exn + list (gmap string value)) :
  (∀ a b, pct_format (endpoint_url T) [a; b]
          = "https://api.census.gov/data/" +:+ a +:+ family +:+ b) ->
  (∀ a b c, pct_format (definition_url T) [a; b; c]
            = "https://api.census.gov/data/" +:+ a +:+ family +:+ b
              +:+ "/variables/" +:+ c +:+ ".json") ->
  Client_get_args self fields geo args kwargs
    {| sent := sent w; field_type_cache := field_type_cache w; urls := T |} = (out, w') ->
  urls w' = T
  ∧ ∃ new, sent w' = sent w ++ new
           ∧ Forall (goes_to (data_url family self
                                (default (default (default_year self) kwargs) args))) new.
Proof.
  intros Hdata Hdef Hget.
  destruct (Client_get_args_sends_only _ _ _ _ _ _ _ _ Hget) as [Hu (new & Hs & Hnew)].
  split; [done|]. exists new. split; [done|].
  eapply Forall_impl; [exact Hnew|]. intros r Hr.
  eapply templates_goes_to in Hr; [|done..]. by destruct args.
Qed.


(** X10.  The clients with one family of templates: every request of a
    [get] of [ACS5StClient] goes to [/data/<year>/acs/<dataset>] and every
    request of a [get] of [SF1Client] and of [PLClient] goes to
    [/data/<year>/dec/<dataset>], for every year, however it is passed. *)
Theorem fixed_family_routing (self : client) (fields : pyseq) (geo : gmap string string)
    (args kwargs : option Z) (w w' : world) (out : exn + list (gmap string value)) :
  let year := default (default (default_year self) kwargs) args in
  (ACS5StClient_get self fields geo args kwargs w = (out, w') ->
     urls w' = ACS_templates
     ∧ ∃ new, sent w' = sent w ++ new ∧ Forall (goes_to (data_url "/acs/" self year)) new)
  ∧ (SF1Client_get self fields geo args kwargs w = (out, w') ->
     urls w' = dec_templates
     ∧ ∃ new, sent w' = sent w ++ new ∧ Forall (goes_to (data_url "/dec/" self year)) new)
  ∧ (PLClient_get self fields geo args kwargs w = (out, w') ->
     urls w' = dec_templates
     ∧ ∃ new, sent w' = sent w ++ new ∧ Forall (goes_to (data_url "/dec/" self year)) new).
Proof.
  intros year. split_and!; intros Hget.
  - eapply switched_get_goes_to; [apply ACS_templates_format..|exact Hget].
  - eapply switched_get_goes_to; [apply dec_templates_format..|exact Hget].
  - eapply switched_get_goes_to; [apply dec_templates_format..|exact Hget].
Qed.

(** ** The parameters of a data request *)

Lemma data_request_params (self : client) (fields : pyseq) (geo : gmap string string)
    (year : option Z) (w : world) (for_ : string) :
  geo !! "for" = Some for_ ->
  ∃ p, params (data_request self fields geo year w for_) = Some p
       ∧ p !! "get" = Some (join "," (items fields))
       ∧ p !! "for" = geo !! "for"
       ∧ p !! "key" = Some (_key self)
       ∧ p !! "in" = geo !! "in"
       ∧ ∀ k, k ≠ "get" -> k ≠ "for" -> k ≠ "key" -> k ≠ "in" -> p !! k = None.
Proof.
  intros Hfor. unfold data_request. simpl. eexists. split; [done|]. rewrite Hfor.
  destruct (geo !! "in") as [in_|]; split_and!; try by simplify_map_eq.
  - intros k ? ? ? ?. by rewrite !lookup_insert_ne, lookup_singleton_ne.
  - intros k ? ? ? ?. by rewrite !lookup_insert_ne, lookup_singleton_ne.
Qed.

(** What the requests of a run from [w] to [w'] carry as parameters. *)
Lemma sends_only_params (self : client) (geo : gmap string string) (year : option Z)
    (w w' : world) :
  sends_only self geo year w w' ->
  ∃ new, sent w' = sent w ++ new
         ∧ Forall (fun r => ∀ p, params r = Some p ->
                     is_Some (p !! "get")
                     ∧ p !! "for" = geo !! "for"
                     ∧ p !! "key" = Some (_key self)
                     ∧ p !! "in" = geo !! "in"
                     ∧ ∀ k, k ≠ "get" -> k ≠ "for" -> k ≠ "key" -> k ≠ "in" ->
                            p !! k = None) new.
Proof.
  intros [_ (new & Hs & Hnew)]. exists new. split; [done|].
  eapply Forall_impl; [exact Hnew|].
  intros r [(fields & for_ & Hfor & ->)|(field & ->)] p Hp; [|done].
  destruct (data_request_params self fields geo year w for_ Hfor)
    as (p' & Hp' & Hget & Hf & Hk & Hin & Hother).
  assert (p = p') as -> by congruence. split_and!; (done || by rewrite Hget).
Qed.

(** X11.  Every data request of a [get] carries the field list under "get",
    the "for" clause of the selector, the key of the client, the "in" clause
    of the selector when it has one, and nothing else: any other entry of the
    selector is not sent. *)
Theorem get_request_params (self : client) (fields : pyseq) (geo : gmap string string)
    (year : option Z) (w w' : world) (out : exn + list (gmap string value)) :
  Client_get self fields geo year w = (out, w') ->
  ∃ new, sent w' = sent w ++ new
         ∧ Forall (fun r => ∀ p, params r = Some p ->
                     is_Some (p !! "get")
                     ∧ p !! "for" = geo !! "for"
                     ∧ p !! "key" = Some (_key self)
                     ∧ p !! "in" = geo !! "in"
                     ∧ ∀ k, k ≠ "get" -> k ≠ "for" -> k ≠ "key" -> k ≠ "in" ->
                            p !! k = None) new.
Proof. intros Hget. eapply sends_only_params, Client_get_sends_only, Hget. Qed.

Lemma ACSClient_get_params (self : client) (fields : pyseq) (geo : gmap string string)
    (args kwargs : option Z) (w w' : world) (out : exn + list (gmap string value)) :
  ACSClient_get self fields geo args kwargs w = (out, w') ->
  ∃ new, sent w' = sent w ++ new
         ∧ Forall (fun r => ∀ p, params r = Some p ->
                     p !! "for" = geo !! "for" ∧ p !! "in" = geo !! "in"
                     ∧ ∀ k, k ≠ "get" -> k ≠ "for" -> k ≠ "key" -> k ≠ "in" ->
                            p !! k = None) new.
Proof.
  unfold ACSClient_get, bind, ACSClient__switch_endpoints, modify. intros Hget.
  apply Client_get_args_sends_only, sends_only_params in Hget as (new & Hs & Hnew).
  exists new. split; [done|]. eapply Forall_impl; [exact Hnew|].
  intros r Hr p Hp. destruct (Hr p Hp) as (_ & Hf & _ & Hin & Hother). done.
Qed.

(** X12.  For 2020 and 2021 [ACS5Client.state_zipcode] does not send the
    state: every data request it sends has the ZCTA as its "for" clause and
    neither an "in" nor a "regionin" parameter. *)
Theorem state_zipcode_sends_no_state (fields : pyseq) (state_fips zcta : string)
    (self : client) (kwargs : option Z) (w w' : world)
    (out : exn + list (gmap string value)) :
  2020 <= default (default_year self) kwargs <= 2021 ->
  ACS5Client_state_zipcode fields state_fips zcta self kwargs w = (out, w') ->
  ∃ new, sent w' = sent w ++ new
         ∧ Forall (fun r => ∀ p, params r = Some p ->
                     p !! "for" = Some ("zip code tabulation area:" +:+ zcta)
                     ∧ p !! "in" = None ∧ p !! "regionin" = None) new.
Proof.
  intros Hy. unfold ACS5Client_state_zipcode.
  rewrite supported_years_in by (apply list_elem_of_In; simpl; lia).
  intros Hget. apply ACSClient_get_params in Hget as (new & Hs & Hnew).
  exists new. split; [done|]. eapply Forall_impl; [exact Hnew|].
  intros r Hr p Hp. destruct (Hr p Hp) as (Hf & Hin & Hother).
  unfold state_zipcode_geo in Hf, Hin.
  rewrite (proj2 (Z.leb_gt _ _)), (proj2 (Z.ltb_ge _ _)) in Hf, Hin by lia.
  split_and!.
  - rewrite Hf. by simplify_map_eq.
  - rewrite Hin. by simplify_map_eq.
  - by apply Hother.
Qed.

(** X13.  The optional containment of two ACS5 selectors.  The requests of
    [state_county_blockgroup] name the tract in their "in" parameter exactly
    when a non-empty tract was given, and the requests of
    [state_elementary_school] have an "in" parameter exactly when the state
    is not empty. *)
Theorem optional_containment (fields : pyseq) (self : client) (kwargs : option Z)
    (w w' : world) (out : exn + list (gmap string value)) :
  (∀ state_fips county_fips blockgroup tract,
     ACS5Client_state_county_blockgroup fields state_fips county_fips blockgroup tract
       self kwargs w = (out, w') ->
     ∃ new, sent w' = sent w ++ new
            ∧ Forall (fun r => ∀ p, params r = Some p ->
                 p !! "in"
                 = Some ("state:" +:+ state_fips +:+ " county:" +:+ county_fips +:+
                         match tract with
                         | Some (String c t) => " tract:" +:+ String c t
                         | Some EmptyString | None => ""
                         end)) new)
  ∧ (∀ state_fips fips,
       ACS5Client_state_elementary_school fields state_fips fips self kwargs w = (out, w') ->
       ∃ new, sent w' = sent w ++ new
              ∧ Forall (fun r => ∀ p, params r = Some p ->
                   p !! "in" = match state_fips with
                               | EmptyString => None
                               | String _ _ => Some ("state:" +:+ state_fips)
                               end) new).
Proof.
  split.
  - intros state_fips county_fips blockgroup tract.
    unfold ACS5Client_state_county_blockgroup, supported_years.
    destruct (bool_decide _).
    + intros Hget. apply ACSClient_get_params in Hget as (new & Hs & Hnew).
      exists new. split; [done|]. eapply Forall_impl; [exact Hnew|].
      intros r Hr p Hp. destruct (Hr p Hp) as (_ & -> & _).
      unfold state_county_blockgroup_geo. rewrite lookup_insert_eq. f_equal.
      destruct tract as [[|c t]|]; by rewrite ?append_assoc, ?append_nil_r.
    + unfold raise. intros [= _ <-]. exists []. by rewrite app_nil_r.
  - intros state_fips fips.
    unfold ACS5Client_state_elementary_school, supported_years.
    destruct (bool_decide _).
    + intros Hget. apply ACSClient_get_params in Hget as (new & Hs & Hnew).
      exists new. split; [done|]. eapply Forall_impl; [exact Hnew|].
      intros r Hr p Hp. destruct (Hr p Hp) as (_ & -> & _).
      unfold state_elementary_school_geo. destruct state_fips; by simplify_map_eq.
    + unfold raise. intros [= _ <-]. exists []. by rewrite app_nil_r.
Qed.

(** ** The deprecated zipcode *)

(** X14.  With [state_fips] given, [ACS5Client.zipcode] is
    [ACS5Client.state_zipcode]: the year guard of the one and of the other
    are the same test; without it the call raises and sends no request, and
    the exception is KeyError for "state_fips" exactly when the year is a
    supported one (the year guard has raised otherwise). *)
Theorem zipcode_delegates (fields : pyseq) (zcta : string) (self : client)
    (kwargs : option Z) (w : world) :
  (∀ state_fips,
     ACS5Client_zipcode fields zcta (Some state_fips) self kwargs w
     = ACS5Client_state_zipcode fields state_fips zcta self kwargs w)
  ∧ ∃ e, ACS5Client_zipcode fields zcta None self kwargs w = (inl e, w)
         ∧ (e = KeyError "state_fips" <-> 2011 <= default (default_year self) kwargs <= 2023).
Proof.
  split.
  - intros state_fips. unfold ACS5Client_zipcode.
    unfold supported_years at 1. destruct (bool_decide _) eqn:Hb; [done|].
    unfold ACS5Client_state_zipcode, supported_years. by rewrite Hb.
  - unfold ACS5Client_zipcode, supported_years.
    destruct (bool_decide _) eqn:Hb.
    + eexists. split; [done|]. split; [|done]. intros _.
      apply bool_decide_eq_true_1, list_elem_of_In in Hb. simpl in Hb. lia.
    + eexists. split; [done|]. split; [done|]. intros Hy.
      apply bool_decide_eq_false_1 in Hb. exfalso. apply Hb.
      apply list_elem_of_In. simpl. lia.
Qed.

(** ** More on the attempts of query *)

Lemma query_body_first_request (self : client) geo year sort for_ (fields f1 : pyseq)
    (w w1 : world) (r : exn + list (gmap string value)) :
  geo !! "for" = Some for_ ->
  query_body self geo year sort (fields, w) = (r, (f1, w1)) ->
  f1 = arg_after sort fields
  ∧ ∃ rest, sent w1
            = sent w ++ data_request self (local_fields sort fields) geo year w for_ :: rest.
Proof.
  intros Hfor. rewrite (query_body_run _ _ _ _ _ _ _ Hfor). simpl.
  destruct (read_response _ _ _ _ _ _) as [r1 w2] eqn:Hread. intros [= _ <- <-].
  split; [done|].
  apply (read_response_sends_only self geo year) in Hread as [_ (new & Hs & _)].
  exists new. rewrite Hs. simpl. by rewrite <- app_assoc.
Qed.

Lemma retry_loop_first_request (self : client) geo year sort for_ (n : nat)
    (fields : pyseq) (w : world) :
  geo !! "for" = Some for_ ->
  ∃ rest, sent (retry_loop n (query_body self geo year sort) (fields, w)).2.2
          = sent w ++ data_request self (local_fields sort fields) geo year w for_ :: rest.
Proof.
  intros Hfor. destruct n as [|n]; simpl.
  - destruct (query_body self geo year sort (fields, w)) as [r [f1 w1]] eqn:Hb.
    by destruct (query_body_first_request _ _ _ _ _ _ _ _ _ _ Hfor Hb) as [_ Hrest].
  - destruct (query_body self geo year sort (fields, w)) as [r [f1 w1]] eqn:Hb.
    destruct (query_body_first_request _ _ _ _ _ _ _ _ _ _ Hfor Hb) as [_ (rest & Hrest)].
    destruct r as [e|a]; [|by exists rest].
    destruct (as_CensusException e); [|by exists rest].
    destruct (contains transient_error _); [|by exists rest].
    destruct (retry_loop n _ (f1, w1)) as [r2 [f2 w2]] eqn:Hloop.
    apply retry_loop_sends_only in Hloop as [_ (new & Hs & _)].
    exists (rest ++ new). simpl. rewrite Hs, Hrest. by rewrite <- app_assoc.
Qed.

Lemma query_body_transient (self : client) geo year sort for_ (fields : pyseq) (w : world) :
  geo !! "for" = Some for_ ->
  let req := data_request self (local_fields sort fields) geo year w for_ in
  let resp := session self (sent w) req in
  status_code resp ≠ 200 -> status_code resp ≠ 204 ->
  query_body self geo year sort (fields, w)
  = (inl (CensusException (text resp)), (arg_after sort fields, push_request w req)).
Proof.
  intros Hfor req resp H200 H204. rewrite (query_body_run _ _ _ _ _ _ _ Hfor). simpl.
  fold req. fold resp. unfold read_response.
  by rewrite (proj2 (Z.eqb_neq _ _) H200), (proj2 (Z.eqb_neq _ _) H204).
Qed.

(** X15.  The attempts of a call share the argument: when the first attempt
    of a query that sorts by GEO_ID fails with the transient error and the
    budget allows another attempt, the second request of a list argument
    asks for the fields followed by GEO_ID twice, and the second request of a
    tuple argument is the first request again. *)
Theorem second_attempt_fields (self : client) (l : list string) (geo : gmap string string)
    (year : option Z) (w : world) (for_ : string) :
  geo !! "for" = Some for_ ->
  2 <= retries self ->
  let req := data_request self (PyList (l ++ [GEO_ID])) geo year w for_ in
  let resp := session self (sent w) req in
  status_code resp ≠ 200 -> status_code resp ≠ 204 ->
  contains transient_error (text resp) = true ->
  (∃ rest, sent (query self (PyList l) geo year true w).2
           = sent w ++ req
               :: data_request self (PyList (l ++ [GEO_ID; GEO_ID])) geo year w for_ :: rest)
  ∧ (∃ rest, sent (query self (PyTuple l) geo year true w).2
             = sent w ++ req :: req :: rest).
Proof.
  intros Hfor Hretries req resp H200 H204 Htransient.
  assert (∃ n, Z.to_nat (Z.max (retries self - 1) 0) = S n) as [n Hn].
  { exists (Z.to_nat (retries self - 2)). lia. }
  split.
  - unfold query, retry_on_transient_error. rewrite Hn. simpl.
    rewrite (query_body_transient self geo year true for_ (PyList l) w Hfor) by done.
    simpl. fold req. fold resp. rewrite Htransient.
    destruct (retry_loop_first_request self geo year true for_ n
                (PyList (l ++ [GEO_ID])) (push_request w req) Hfor) as (rest & Hrest).
    destruct (retry_loop n _ _) as [r2 [f2 w2]]. simpl in *.
    exists rest. rewrite Hrest. rewrite <- !app_assoc. done.
  - unfold query, retry_on_transient_error. rewrite Hn. simpl.
    rewrite (query_body_transient self geo year true for_ (PyTuple l) w Hfor) by done.
    simpl. change (contains transient_error _) with (contains transient_error (text resp)).
    rewrite Htransient.
    destruct (retry_loop_first_request self geo year true for_ n
                (PyTuple l) (push_request w req) Hfor) as (rest & Hrest).
    change (push_request w (data_request self (PyTuple (l ++ [GEO_ID])) geo year w for_))
      with (push_request w req).
    destruct (retry_loop n _ _) as [r2 [f2 w2]]. simpl in *.
    exists rest. rewrite Hrest. by rewrite <- !app_assoc.
Qed.

(** X16.  A 200 answer whose body does not decode and does not contain the
    invalid-key marker makes the call raise ValueError after that one
    request: it is not retried, whatever the budget. *)
Theorem undecodable_answer_raises_ValueError (self : client) (geo : gmap string string)
    (year : option Z) (sort : bool) (fields : pyseq) (w : world) (for_ : string) :
  geo !! "for" = Some for_ ->
  let req := data_request self (local_fields sort fields) geo year w for_ in
  let resp := session self (sent w) req in
  status_code resp = 200 -> json resp = None ->
  contains "<title>Invalid Key</title>" (text resp) = false ->
  query self fields geo year sort w = (inl ValueError, push_request w req).
Proof.
  intros Hfor req resp H200 Hjson Hmark.
  assert (query_body self geo year sort (fields, w)
          = (inl ValueError, (arg_after sort fields, push_request w req))) as Hb.
  { rewrite (query_body_run _ _ _ _ _ _ _ Hfor). simpl. fold req. fold resp.
    unfold read_response. by rewrite H200, Hjson, Hmark. }
  by rewrite (query_run _ _ _ _ _ _ _ _ Hb) by (by left).
Qed.

(** The loop of [n] more attempts against a session that answers every data
    request with the transient error. *)
Lemma retry_loop_exhausted (self : client) geo year sort for_ (n : nat) :
  geo !! "for" = Some for_ ->
  (∀ hist rq, is_Some (params rq) ->
     status_code (session self hist rq) ≠ 200 ∧ status_code (session self hist rq) ≠ 204
     ∧ contains transient_error (text (session self hist rq)) = true) ->
  ∀ fields w, ∃ m f' w',
    retry_loop n (query_body self geo year sort) (fields, w)
    = (inl (CensusException m), (f', w'))
    ∧ contains transient_error m = true
    ∧ length (sent w') = (length (sent w) + S n)%nat
    ∧ field_type_cache w' = field_type_cache w.
Proof.
  intros Hfor Hsess. induction n as [|n IH]; intros fields w.
  - simpl.
    destruct (Hsess (sent w) (data_request self (local_fields sort fields) geo year w for_))
      as (H200 & H204 & Ht); [done|].
    rewrite (query_body_transient self geo year sort for_ fields w Hfor) by done.
    eexists _, _, _. split_and!; [done|done| |done].
    simpl. rewrite length_app. simpl. lia.
  - simpl.
    destruct (Hsess (sent w) (data_request self (local_fields sort fields) geo year w for_))
      as (H200 & H204 & Ht); [done|].
    rewrite (query_body_transient self geo year sort for_ fields w Hfor) by done.
    simpl. rewrite Ht.
    destruct (IH (arg_after sort fields)
                (push_request w (data_request self (local_fields sort fields) geo year w for_)))
      as (m & f' & w' & -> & Hm & Hlen & Hcache).
    exists m, f', w'. split_and!; [done|done| |done].
    rewrite Hlen. simpl. rewrite length_app. simpl. lia.
Qed.

(** X17.  Against a session that answers every data request with the
    transient error, a query sends exactly [max(retries, 1)] requests, looks
    up no field type, and raises the CensusException of the last answer. *)
Theorem query_exhausts_its_budget (self : client) (geo : gmap string string)
    (year : option Z) (sort : bool) (fields : pyseq) (w : world) (for_ : string) :
  geo !! "for" = Some for_ ->
  (∀ hist rq, is_Some (params rq) ->
     status_code (session self hist rq) ≠ 200 ∧ status_code (session self hist rq) ≠ 204
     ∧ contains transient_error (text (session self hist rq)) = true) ->
  ∃ m w', query self fields geo year sort w = (inl (CensusException m), w')
          ∧ contains transient_error m = true
          ∧ length (sent w') = (length (sent w) + Z.to_nat (Z.max (retries self) 1))%nat
          ∧ field_type_cache w' = field_type_cache w.
Proof.
  intros Hfor Hsess. unfold query, retry_on_transient_error.
  destruct (retry_loop_exhausted self geo year sort for_
              (Z.to_nat (Z.max (retries self - 1) 0)) Hfor Hsess fields w)
    as (m & f' & w' & -> & Hm & Hlen & Hcache).
  exists m, w'. split_and!; [done|done| |done]. rewrite Hlen. lia.
Qed.

(** ** More on get *)

Lemma get_traced_result {St}
    (query : pyseq -> gmap string string -> option Z -> bool
             -> M St (list (gmap string value)))
    (fields : pyseq) (geo : gmap string string) (year : option Z) (s s' : St)
    (out : exn + list (gmap string value))
    (tr : list (pyseq * (exn + list (gmap string value))))
    (rs : list (list (gmap string value))) :
  get (traced query) fields geo year ([], s) = (out, (tr, s')) ->
  tr.*2 = inr <$> rs ->
  out = inr (merge <$> zip_star rs).
Proof.
  unfold get, bind, ret. rewrite run_each_traced. simpl. intros Hget Hall.
  assert (tr = calls query geo year (sort_by_geoid fields year) (chunks fields 49) s) as ->.
  { destruct (run_each _ (chunks fields 49) s) as [[?|?] ?]; simpl in Hget; congruence. }
  pose proof (calls_all_returned _ _ _ _ _ _ _ Hall) as Hok.
  destruct (run_each _ (chunks fields 49) s) as [[e|rs'] s1]; simpl in *; [done|].
  injection Hok as ->. by injection Hget as <- _.
Qed.

(** X18.  The keys of a merged row: row [i] of the result of [get] has the
    keys of the rows at position [i] of all the chunk results, and no
    other. *)
Theorem get_row_keys {St}
    (query : pyseq -> gmap string string -> option Z -> bool
             -> M St (list (gmap string value)))
    (fields : pyseq) (geo : gmap string string) (year : option Z) (s s' : St)
    (rows : list (gmap string value))
    (tr : list (pyseq * (exn + list (gmap string value))))
    (rs : list (list (gmap string value))) (i : nat) (row : gmap string value) :
  get (traced query) fields geo year ([], s) = (inr rows, (tr, s')) ->
  tr.*2 = inr <$> rs ->
  rows !! i = Some row ->
  ∃ cells, Forall2 (fun r c => r !! i = Some c) rs cells
           ∧ dom row = ⋃ (dom <$> cells).
Proof.
  intros Hget Hall Hrow.
  pose proof (get_traced_result _ _ _ _ _ _ _ _ _ Hget Hall) as [= ->].
  rewrite list_lookup_fmap in Hrow.
  destruct (zip_star rs !! i) as [cells|] eqn:Hcells; [|done].
  injection Hrow as <-. exists cells. split; [|apply dom_merge].
  apply zip_star_lookup; [|done]. by destruct rs.
Qed.

Lemma merge_singleton (d : gmap string value) : merge [d] = d.
Proof. unfold merge. simpl. by rewrite (right_id_L ∅ (∪)). Qed.

(** X19.  For 1 to 49 fields [get] is one [query] of the whole field list,
    without the sort by GEO_ID: the same result and the same requests. *)
Theorem get_of_one_chunk (self : client) (fields : pyseq) (geo : gmap string string)
    (year : option Z) (w : world) :
  (1 <= len fields <= 49)%nat ->
  Client_get self fields geo year w = query self fields geo year false w.
Proof.
  intros Hlen. unfold Client_get, get. rewrite chunks_short by done.
  assert (sort_by_geoid fields year = false) as ->.
  { unfold sort_by_geoid. by rewrite (proj2 (Nat.ltb_ge _ _)) by lia. }
  simpl. unfold bind, ret.
  destruct (query self fields geo year false w) as [[e|r] w']; [done|].
  do 2 f_equal. change (zip_star [r]) with ((fun x => [x]) <$> r).
  rewrite <- list_fmap_compose.
  rewrite <- (list_fmap_id r) at 2. apply list_fmap_ext. intros _ x _. simpl.
  apply merge_singleton.
Qed.

(** ** The message of APIKeyError *)

Lemma has_linebreak_app (s t : string) :
  has_linebreak (s +:+ t) = has_linebreak s || has_linebreak t.
Proof.
  induction s as [|c s IH]; [done|]. rewrite append_cons. simpl.
  by rewrite IH, orb_assoc.
Qed.

Lemma has_linebreak_rev_app (s t : string) :
  has_linebreak (String.rev_app s t) = has_linebreak s || has_linebreak t.
Proof.
  revert t. induction s as [|c s IH]; intros t; [done|]. simpl. rewrite IH. simpl.
  destruct (is_linebreak c), (has_linebreak s), (has_linebreak t); done.
Qed.

Lemma rev_app_append (s t u : string) :
  String.rev_app s t +:+ u = String.rev_app s (t +:+ u).
Proof. revert t. induction s as [|c s IH]; intros t; [done|]. simpl. by rewrite IH. Qed.

Lemma splitlines_go_lines (s : string) :
  (∀ cur, has_linebreak cur = false ->
          Forall (fun line => has_linebreak line = false) (splitlines_go cur s))
  ∧ (∀ c cur, has_linebreak cur = false ->
              Forall (fun line => has_linebreak line = false)
                     (splitlines_go cur (String c s))).
Proof.
  assert (Hrev : ∀ cur, has_linebreak cur = false -> has_linebreak (String.rev cur) = false).
  { intros cur Hcur. unfold String.rev. by rewrite has_linebreak_rev_app, Hcur. }
  induction s as [|c' s [IH1 IH2]].
  - split.
    + intros cur Hcur. simpl. destruct cur; repeat constructor. by apply Hrev.
    + intros c cur Hcur. simpl. destruct (is_linebreak c) eqn:Hc.
      * constructor; [by apply Hrev|]. constructor.
      * constructor; [|constructor]. apply Hrev. simpl. by rewrite Hc, Hcur.
  - split; [apply IH2|].
    intros c cur Hcur. cbn [splitlines_go]. destruct (is_linebreak c) eqn:Hc.
    + constructor; [by apply Hrev|].
      destruct (Ascii.eqb c "013" && Ascii.eqb c' "010"); [by apply IH1|by apply IH2].
    + apply IH2. simpl. by rewrite Hc, Hcur.
Qed.

Lemma splitlines_go_one_line (s cur : string) :
  has_linebreak s = false ->
  splitlines_go cur s
  = match String.rev cur +:+ s with
    | EmptyString => []
    | String c t => [String c t]
    end.
Proof.
  revert cur. induction s as [|c s IH]; intros cur Hs.
  - simpl. rewrite append_nil_r. destruct cur as [|a cur]; [done|].
    unfold String.rev. simpl.
    assert (∀ b t, String.rev_app cur (String b t) ≠ "") as Hne.
    { clear. induction cur as [|b' cur IH]; intros b t; [done|]. simpl. apply IH. }
    specialize (Hne a ""). by destruct (String.rev_app cur (String a "")).
  - simpl in Hs. apply orb_false_iff in Hs as [Hc Hs]. cbn [splitlines_go].
    rewrite Hc, (IH _ Hs). unfold String.rev. simpl.
    by rewrite !rev_app_append.
Qed.

Lemma has_linebreak_join (lines : list string) :
  Forall (fun line => has_linebreak line = false) lines ->
  has_linebreak (join " " lines) = false.
Proof.
  induction 1 as [|line lines Hline Hlines IH]; [done|].
  destruct lines as [|line' lines]; [done|].
  change (join " " (line :: line' :: lines))
    with (line +:+ " " +:+ join " " (line' :: lines)).
  by rewrite !has_linebreak_app, Hline, IH.
Qed.

(** X20.  The value of the APIKeyError that [query] raises for an answer
    with the invalid-key marker is one line: it holds no line boundary, and it
    is the text of the answer itself when that holds none. *)
Theorem api_key_message_one_line (body : string) :
  (∀ self fields year sort resp w,
     status_code resp = 200 -> json resp = None -> text resp = body ->
     contains "<title>Invalid Key</title>" body = true ->
     read_response self fields year sort resp w
     = (inl (APIKeyError (api_key_message body)), w))
  ∧ has_linebreak (api_key_message body) = false
  ∧ (has_linebreak body = false -> api_key_message body = body).
Proof.
  split_and!.
  - intros self fields year sort resp w H200 Hjson <- Hmark.
    unfold read_response. by rewrite H200, Hjson, Hmark.
  - unfold api_key_message, splitlines.
    apply has_linebreak_join. by apply (splitlines_go_lines body).
  - unfold api_key_message, splitlines.
    intros Hbody. rewrite (splitlines_go_one_line _ _ Hbody).
    change (String.rev "" +:+ body) with body. by destruct body.
Qed.

End MoreProperties.

(** * The properties at concrete inputs *)

Section Examples.
#[local] Existing Instance digits_float.

(** C1 as stated fails for the empty field list, whose length is at most
    49: [get] issues no query and sends no request. *)
Lemma get_empty_field_list_issues_no_query :
  (len (PyList []) <= 49)%nat
  ∧ get (traced (query echo_client)) (PyList []) state_all None ([], new_world)
    = (inr [], ([], new_world))
  ∧ length (get (traced (query echo_client)) (PyList []) state_all None ([], new_world)).2.1
    ≠ 1%nat.
Proof. split_and!; [unfold len; simpl; lia|reflexivity|discriminate]. Qed.

Lemma get_queries_are_the_chunks_witness :
  let fields := PyList (numbered_fields 50) in
  let out := get (traced (constant_query 2)) fields state_all None ([], tt) in
  out.1 = inr (replicate 2 ∅)
  ∧ out.2.1.*1 = chunks fields 49
  ∧ length out.2.1 = 2%nat
  ∧ concat (items <$> out.2.1.*1) = items fields.
Proof.
  intros fields out.
  destruct (get_queries_are_the_chunks (constant_query 2) fields state_all None tt tt
              out.2.1 (replicate 2 ∅)) as (H1 & H2 & _ & _ & H5 & _).
  { reflexivity. }
  split_and!; [reflexivity|exact H1|rewrite H2; reflexivity|exact H5].
Defined.

Lemma get_truncates_to_shortest_chunk_witness :
  let fields := PyList (numbered_fields 50) in
  let out := get (traced uneven_query) fields state_all None ([], tt) in
  row_count <$> out.2.1.*2 = [Some 49%nat; Some 1%nat]
  ∧ ∃ rows, out.1 = inr rows ∧ length rows = 1%nat.
Proof.
  intros fields out.
  destruct (get_truncates_to_shortest_chunk uneven_query fields state_all None tt tt
              out.1 out.2.1 [replicate 49 ∅; replicate 1 ∅])
    as (rows & Hout & Hlen & _).
  { reflexivity. }
  { reflexivity. }
  split; [reflexivity|]. exists rows. split; [exact Hout|].
  rewrite Hlen. reflexivity.
Defined.

(** C10 on a client: the first chunk comes back with the rows of "b" and
    "a", the second with the row of "a".  For 2009, when nothing is sorted,
    the one merged row pairs the first row of each chunk and the row of "a"
    of the first chunk is dropped; without a year the chunks are sorted
    first. *)
Lemma get_pairs_rows_by_position :
  let self := ACS5Client "k" None shrinking_session None in
  let fields := PyList (numbered_fields 50) in
  cells_of ["F1"; "F50"; "GEO_ID"] (Client_get self fields state_all (Some 2009) new_world).1
  = inr [[Some (VStr "F1@b"); Some (VStr "F50@a"); None]]
  ∧ cells_of ["F1"; "F50"; "GEO_ID"] (Client_get self fields state_all None new_world).1
    = inr [[Some (VStr "F1@a"); Some (VStr "F50@a"); Some (VStr "a")]].
Proof. split; vm_compute; reflexivity. Qed.

(** C2 at the failing input: 50 fields without GEO_ID, no year.  The two
    merged rows hold the GEO_ID that [query] appended to the chunks. *)
Theorem get_keeps_appended_geoid :
  let fields := PyList (numbered_fields 50) in
  existsb (String.eqb GEO_ID) (items fields) = false
  ∧ geoids_of (Client_get echo_client fields state_all None new_world).1
    = inr [Some (VStr "a"); Some (VStr "b")].
Proof. split; vm_compute; reflexivity. Qed.

(** C3 as stated fails when GEO_ID is among the 50 requested fields: it is
    appended to both chunks all the same. *)
Lemma geoid_appended_though_requested :
  let fields := PyList (GEO_ID :: numbered_fields 49) in
  In GEO_ID (items fields)
  ∧ sort_by_geoid fields None = true
  ∧ omap get_param (sent (Client_get echo_client fields state_all None new_world).2)
    = [join "," (GEO_ID :: numbered_fields 48 ++ [GEO_ID]); "F49,GEO_ID"].
Proof. split_and!; [by left|reflexivity|vm_compute; reflexivity]. Qed.

Lemma geoid_appended_and_sorted_witness :
  let fields := PyList (numbered_fields 50) in
  get_param (data_request echo_client (local_fields true (PyList ["F50"])) state_all None
               new_world "state:*")
  = Some "F50,GEO_ID".
Proof.
  intros fields.
  destruct (geoid_appended_and_sorted echo_client fields state_all None) as (_ & _ & Hreq & _).
  destruct (Hreq (PyList ["F50"]) new_world "state:*" eq_refl) as [Hget _].
  exact Hget.
Defined.

Lemma query_status_handling_witness :
  let fields := PyList ["NAME"] in
  let no_content := {| status_code := 204; text := ""; json := None |} in
  let bad_key := {| status_code := 200; text := invalid_key_page; json := None |} in
  let bad_request := {| status_code := 400; text := "error: unknown variable 'NAME'";
                        json := None |} in
  (query (ACS5Client "k" None (fixed_session no_content) None) fields state_all None false
     new_world).1 = inr []
  ∧ (query (ACS5Client "k" None (fixed_session bad_key) None) fields state_all None false
       new_world).1 = inl (APIKeyError invalid_key_page)
  ∧ (query (ACS5Client "k" None (fixed_session bad_request) None) fields state_all None false
       new_world).1 = inl (CensusException "error: unknown variable 'NAME'").
Proof.
  intros fields no_content bad_key bad_request. split_and!.
  - destruct (query_status_handling (ACS5Client "k" None (fixed_session no_content) None)
                state_all None false fields new_world "state:*" eq_refl) as (H204 & _).
    destruct (H204 eq_refl) as [_ ->]. reflexivity.
  - destruct (query_status_handling (ACS5Client "k" None (fixed_session bad_key) None)
                state_all None false fields new_world "state:*" eq_refl) as (_ & Hkey & _).
    destruct (Hkey eq_refl eq_refl eq_refl) as [_ ->]. reflexivity.
  - destruct (query_status_handling (ACS5Client "k" None (fixed_session bad_request) None)
                state_all None false fields new_world "state:*" eq_refl) as (_ & _ & Hother).
    destruct (Hother ltac:(discriminate) ltac:(discriminate)) as [_ Hq].
    rewrite Hq; [reflexivity|]. left. reflexivity.
Defined.

(** The attempts of a call share the argument object: a second attempt on a
    list appends GEO_ID to a list that already ends with it; a tuple is not
    changed by the first attempt. *)
Lemma retry_appends_geoid_again_to_a_list :
  let self := ACS5Client "k" None (flaky_session 1 ["a"]) None in
  omap get_param (sent (query self (PyList ["NAME"]) state_all None true new_world).2)
  = ["NAME,GEO_ID"; "NAME,GEO_ID,GEO_ID"]
  ∧ omap get_param (sent (query self (PyTuple ["NAME"]) state_all None true new_world).2)
    = ["NAME,GEO_ID"; "NAME,GEO_ID"].
Proof. split; vm_compute; reflexivity. Qed.

(** C5 as stated fails for a budget of 0: one attempt is made. *)
Lemma retry_budget_zero_still_attempts :
  retries (failing_client 0) = 0
  ∧ length (retry_on_transient_error
              (recorded (fun self => query_body self state_all None false))
              (failing_client 0) ([], (PyList ["NAME"], new_world))).2.1 = 1%nat
  ∧ length (sent (query (failing_client 0) (PyList ["NAME"]) state_all None false
                    new_world).2) = 1%nat.
Proof. split_and!; vm_compute; reflexivity. Qed.

Lemma retry_budget_and_propagation_witness :
  ∃ pre r s',
    retry_on_transient_error (recorded (fun self => query_body self state_all None false))
      (failing_client 3) ([], (PyList ["NAME"], new_world)) = (r, (pre ++ [r], s'))
    ∧ length (pre ++ [r]) = 3%nat.
Proof.
  destruct (retry_budget_and_propagation
              (fun self => query_body self state_all None false)
              (failing_client 3) (PyList ["NAME"], new_world))
    as (pre & r & s' & Hrec & _ & _ & Hmax & _).
  exists pre, r, s'. split; [exact Hrec|].
  apply (f_equal (fun o => length o.2.1)) in Hrec. simpl in Hrec. rewrite <- Hrec.
  vm_compute. reflexivity.
Defined.


Lemma supported_years_guard_witness :
  let fields := PyList ["NAME"] in
  ACS5Client_state_zipcode fields "17" "60601" echo_client (Some 2010) new_world
  = (inl (UnsupportedYearException
            "Geography is not available in 2010. Available years include (2023, 2022, 2021, 2020, 2019, 2018, 2017, 2016, 2015, 2014, 2013, 2012, 2011)"),
     new_world)
  ∧ Client_state (fun self fields geo => ACSClient_get self fields geo None)
      fields "17" echo_client (Some 2010) new_world
    = ACSClient_get echo_client fields {["for" := "state:17"]} None (Some 2010) new_world.
Proof.
  intros fields. split.
  - unfold ACS5Client_state_zipcode.
    match goal with
    | |- supported_years ?ys ?f ?c ?k ?w = _ =>
        destruct (supported_years_guard ys f c k w) as [Hout _]
    end.
    rewrite Hout; [reflexivity|].
    intros Hin. apply list_elem_of_In in Hin. simpl in Hin. lia.
  - unfold Client_state.
    match goal with
    | |- supported_years ?ys ?f ?c ?k ?w = _ =>
        destruct (supported_years_guard ys f c k w) as [_ Hin]
    end.
    rewrite Hin; [reflexivity|]. apply list_elem_of_In. simpl. lia.
Defined.

Lemma state_zipcode_year_bands_witness :
  state_zipcode_geo 2019 "17" "60601"
  = <["in" := "state:17"]> {["for" := "zip code tabulation area:60601"]}
  ∧ state_zipcode_geo 2021 "17" "60601"
    = <["regionin" := "state:17"]> {["for" := "zip code tabulation area:60601"]}
  ∧ state_zipcode_geo 2022 "17" "60601" = {["for" := "zip code tabulation area:60601"]}.
Proof.
  split_and!.
  - destruct (state_zipcode_year_bands 2019 "17" "60601") as (_ & Hin & _).
    destruct Hin as [-> _]; [lia|reflexivity].
  - destruct (state_zipcode_year_bands 2021 "17" "60601") as (_ & _ & Hregion & _).
    destruct Hregion as [-> _]; [lia|reflexivity].
  - destruct (state_zipcode_year_bands 2022 "17" "60601") as (_ & _ & _ & Hnone & _).
    destruct Hnone as [-> _]; [lia|reflexivity].
Defined.



End Examples.

(** * The further properties at concrete inputs *)

Section MoreExamples.
#[local] Existing Instance digits_float.

Lemma chunks_shape_witness :
  chunks (PyList (numbered_fields 50)) 49 !! 1%nat = Some (PyList ["F50"])
  ∧ (1 <= len (PyList ["F50"]) <= 49)%nat.
Proof.
  split; [reflexivity|].
  destruct (chunks_shape (PyList (numbered_fields 50)) 49 1 (PyList ["F50"]))
    as (_ & Hlen & _); [lia|reflexivity|exact Hlen].
Defined.

Lemma merge_last_wins_witness :
  merge [{["NAME" := VStr "a"]}; {["NAME" := VStr "b"]}] !! "NAME" = Some (VStr "b").
Proof.
  apply merge_last_wins. exists 1%nat, {["NAME" := VStr "b"]}.
  split_and!; [reflexivity|reflexivity|].
  intros j d' Hj Hlook. apply lookup_lt_Some in Hlook. simpl in Hlook. lia.
Defined.

Lemma read_response_rows_witness :
  let resp := {| status_code := 200; text := "";
                 json := Some (JArray ["NAME"; "state"]
                                 [[Some "Alabama"; Some "01"]; [Some "Alaska"]]) |} in
  let out := read_response not_found_client (PyList ["NAME"]) 2023 false resp new_world in
  cells_of ["NAME"; "state"] out.1
  = inr [[Some (VStr "Alabama"); Some (VStr "01")]; [Some (VStr "Alaska"); None]]
  ∧ ∃ rows, out.1 = inr rows ∧ length rows = 2%nat.
Proof.
  intros resp out. split; [vm_compute; reflexivity|].
  destruct out as [[e|rows] w'] eqn:Hout.
  - exfalso. apply (f_equal (fun o => row_count o.1)) in Hout. vm_compute in Hout.
    discriminate Hout.
  - exists rows. split; [reflexivity|].
    destruct (read_response_rows not_found_client (PyList ["NAME"]) 2023 false resp
                new_world w' ["NAME"; "state"]
                [[Some "Alabama"; Some "01"]; [Some "Alaska"]] rows)
      as (Hlen & _); [reflexivity|reflexivity|exact Hout|exact Hlen].
Defined.

Lemma get_without_for_witness :
  Client_get echo_client (PyList ["NAME"]) ∅ None new_world
  = (inl (KeyError "for"), new_world)
  ∧ Client_get echo_client (PyList []) ∅ None new_world = (inr [], new_world).
Proof.
  split.
  - rewrite (get_without_for echo_client (PyList ["NAME"]) ∅ None new_world);
      reflexivity.
  - rewrite (get_without_for echo_client (PyList []) ∅ None new_world); reflexivity.
Defined.


Lemma field_type_error_not_cached_witness :
  let self := ACS5Client "k" None unknown_type_session None in
  let out := _field_type self "NAME" 2023 new_world in
  out.1 = inl (KeyError "datetime")
  ∧ field_type_cache out.2 = field_type_cache new_world
  ∧ length (sent out.2) = 1%nat.
Proof.
  intros self out.
  destruct (field_type_error_not_cached self "NAME" 2023 new_world out.2
              (KeyError "datetime")) as (_ & Hw & Hcache & _).
  - reflexivity.
  - split_and!; [reflexivity|exact Hcache|by rewrite Hw].
Defined.

Lemma get_sends_only_witness :
  urls (Client_get echo_client (PyList ["NAME"]) state_all None new_world).2
  = urls new_world.
Proof.
  destruct (get_sends_only echo_client (PyList ["NAME"]) state_all None new_world
              (Client_get echo_client (PyList ["NAME"]) state_all None new_world).2
              (Client_get echo_client (PyList ["NAME"]) state_all None new_world).1)
    as [Hu _]; [apply surjective_pairing|exact Hu].
Defined.


Lemma fixed_family_routing_witness :
  urls (SF1Client_get echo_client (PyList ["NAME"]) state_all None (Some 2010) new_world).2
  = dec_templates.
Proof.
  destruct (fixed_family_routing echo_client (PyList ["NAME"]) state_all None (Some 2010)
              new_world
              (SF1Client_get echo_client (PyList ["NAME"]) state_all None (Some 2010)
                 new_world).2
              (SF1Client_get echo_client (PyList ["NAME"]) state_all None (Some 2010)
                 new_world).1)
    as (_ & Hsf1 & _).
  destruct (Hsf1 (surjective_pairing _)) as [Hu _]. exact Hu.
Defined.

Lemma get_request_params_witness :
  ∃ new, sent (Client_get echo_client (PyList ["NAME"]) state_all None new_world).2
         = sent new_world ++ new
         ∧ Forall (fun r => ∀ p, params r = Some p -> p !! "key" = Some "k") new.
Proof.
  destruct (get_request_params echo_client (PyList ["NAME"]) state_all None new_world
              _ _ (surjective_pairing _)) as (new & Hs & Hnew).
  exists new. split; [exact Hs|]. eapply Forall_impl; [exact Hnew|].
  intros r Hr p Hp. destruct (Hr p Hp) as (_ & _ & Hk & _). exact Hk.
Defined.

Lemma state_zipcode_sends_no_state_witness :
  ∃ new, sent (ACS5Client_state_zipcode (PyList ["NAME"]) "17" "60601" echo_client
                 (Some 2021) new_world).2 = sent new_world ++ new
         ∧ Forall (fun r => ∀ p, params r = Some p ->
                     p !! "in" = None ∧ p !! "regionin" = None) new.
Proof.
  destruct (state_zipcode_sends_no_state (PyList ["NAME"]) "17" "60601" echo_client
              (Some 2021) new_world _ _ ltac:(simpl; lia) (surjective_pairing _))
    as (new & Hs & Hnew).
  exists new. split; [exact Hs|]. eapply Forall_impl; [exact Hnew|].
  intros r Hr p Hp. destruct (Hr p Hp) as (_ & Hin & Hregion). by split.
Defined.

Lemma optional_containment_witness :
  ∃ new, sent (ACS5Client_state_county_blockgroup (PyList ["NAME"]) "17" "031" "1"
                 (Some "") echo_client (Some 2021) new_world).2 = sent new_world ++ new
         ∧ Forall (fun r => ∀ p, params r = Some p ->
                     p !! "in" = Some "state:17 county:031") new.
Proof.
  destruct (optional_containment (PyList ["NAME"]) echo_client (Some 2021) new_world
              (ACS5Client_state_county_blockgroup (PyList ["NAME"]) "17" "031" "1"
                 (Some "") echo_client (Some 2021) new_world).2
              (ACS5Client_state_county_blockgroup (PyList ["NAME"]) "17" "031" "1"
                 (Some "") echo_client (Some 2021) new_world).1) as [Hblock _].
  exact (Hblock "17" "031" "1" (Some "") (surjective_pairing _)).
Defined.

Lemma zipcode_delegates_witness :
  ACS5Client_zipcode (PyList ["NAME"]) "60601" None echo_client (Some 2021) new_world
  = (inl (KeyError "state_fips"), new_world).
Proof.
  destruct (zipcode_delegates (PyList ["NAME"]) "60601" echo_client (Some 2021) new_world)
    as [_ (e & He & Hiff)].
  rewrite He. f_equal. f_equal. apply Hiff. simpl. lia.
Defined.

Lemma second_attempt_fields_witness :
  let self := ACS5Client "k" None (flaky_session 1 ["a"]) None in
  ∃ rest, omap get_param
            (sent (query self (PyList ["NAME"]) state_all None true new_world).2)
          = "NAME,GEO_ID" :: "NAME,GEO_ID,GEO_ID" :: rest.
Proof.
  intros self.
  destruct (second_attempt_fields self ["NAME"] state_all None new_world "state:*")
    as [(rest & Hrest) _].
  - reflexivity.
  - simpl. lia.
  - simpl. discriminate.
  - simpl. discriminate.
  - vm_compute. reflexivity.
  - exists (omap get_param rest). rewrite Hrest. reflexivity.
Defined.

Lemma undecodable_answer_raises_ValueError_witness :
  let resp := {| status_code := 200; text := "<html>Bad Gateway</html>"; json := None |} in
  (query (ACS5Client "k" None (fixed_session resp) None) (PyList ["NAME"]) state_all None
     false new_world).1 = inl ValueError.
Proof.
  intros resp.
  rewrite (undecodable_answer_raises_ValueError
             (ACS5Client "k" None (fixed_session resp) None) state_all None false
             (PyList ["NAME"]) new_world "state:*"); reflexivity.
Defined.

Lemma query_exhausts_its_budget_witness :
  ∃ m w', query (failing_client 3) (PyList ["NAME"]) state_all None false new_world
          = (inl (CensusException m), w')
          ∧ length (sent w') = 3%nat.
Proof.
  destruct (query_exhausts_its_budget (failing_client 3) state_all None false
              (PyList ["NAME"]) new_world "state:*") as (m & w' & Hq & _ & Hlen & _).
  - reflexivity.
  - intros hist rq _. simpl. split_and!; [discriminate|discriminate|].
    vm_compute. reflexivity.
  - exists m, w'. split; [exact Hq|]. rewrite Hlen. reflexivity.
Defined.

Lemma get_row_keys_witness :
  let first : gmap string value := {["F1" := VStr "x"]} in
  let second : gmap string value := {["F50" := VStr "x"]} in
  ∃ cells : list (gmap string value),
    Forall2 (fun r c => r !! 0%nat = Some c) [[first]; [second]] cells
    ∧ dom (merge [first; second]) = ⋃ (dom <$> cells).
Proof.
  intros first second.
  apply (get_row_keys first_field_query (PyList (numbered_fields 50)) state_all None
           tt tt [merge [first; second]]
           (get (traced first_field_query) (PyList (numbered_fields 50)) state_all None
              ([], tt)).2.1
           [[first]; [second]] 0 (merge [first; second]));
    reflexivity.
Defined.

Lemma get_of_one_chunk_witness :
  Client_get echo_client (PyList ["NAME"]) state_all None new_world
  = query echo_client (PyList ["NAME"]) state_all None false new_world.
Proof. apply get_of_one_chunk. unfold len. simpl. lia. Defined.

Lemma api_key_message_one_line_witness :
  api_key_message invalid_key_page = invalid_key_page.
Proof.
  destruct (api_key_message_one_line invalid_key_page) as (_ & _ & Hsame).
  apply Hsame. vm_compute. reflexivity.
Defined.

End MoreExamples.
